(** * Qflow: type-based node linking and the data-flow codec

    A shallow embedding of the type validation services
    (architecture/type_based_node_linking.md, frontend and backend), of the
    workflow validation service of the same document, and of the
    [TypeConverter] of architecture/Qflow_Development_Plan.md, with the
    properties the specification states about them. *)

From stdpp Require Import base option list strings gmap fin_maps pretty.
From Stdlib Require Import ZArith Lia Ascii.

Open Scope string_scope.
Open Scope list_scope.

(** ** Outcomes of calls

    A call either returns a value or raises; an exception is known by the
    name of its class. *)

Inductive outcome (A : Type) : Type :=
  | Returned (a : A)
  | Raised (exn : string).
Arguments Returned {A} a.
Arguments Raised {A} exn.

#[global] Instance outcome_ret : MRet outcome := fun A a => Returned a.
#[global] Instance outcome_bind : MBind outcome := fun A B k m =>
  match m with
  | Returned a => k a
  | Raised e => Raised e
  end.

(** ** The type registry (backend) *)

Inductive TypeCategory := BASIC | COLLECTION | SPECIAL | CUSTOM.

(** Python classes, as far as [isinstance] tells them apart in this code.
    [Cuser] is any class defined elsewhere that derives from [object]
    directly. *)
Inductive pyclass :=
  | Cobject | CNoneType | Cbool | Cint | Cfloat | Cstr | Cbytes
  | Clist | Ctuple | Cset | Cdict
  | Cuser (name : string).

(** The [python_type] entry of a [TypeInfo]: a class, a tuple of classes, or
    (for the special types) a dotted name kept as text. *)
Inductive python_type_spec :=
  | OneClass (c : pyclass)
  | Classes (cs : list pyclass)
  | Named (dotted : string).

Record TypeInfo := mkTypeInfo {
  name : string;
  category : TypeCategory;
  python_type : python_type_spec;
  compatible_types : list string;
  description : string
}.

(** The dictionary literal of [_initialize_type_registry], in source order. *)
Definition registry_entries : list (string * TypeInfo) :=
  [ ("string", mkTypeInfo "string" BASIC (OneClass Cstr) ["string"; "any"] "Text string");
    ("number", mkTypeInfo "number" BASIC (Classes [Cint; Cfloat])
                 ["number"; "integer"; "float"; "any"] "Numeric value");
    ("integer", mkTypeInfo "integer" BASIC (OneClass Cint)
                 ["integer"; "number"; "any"] "Integer value");
    ("float", mkTypeInfo "float" BASIC (OneClass Cfloat)
                 ["float"; "number"; "any"] "Floating point value");
    ("boolean", mkTypeInfo "boolean" BASIC (OneClass Cbool) ["boolean"; "any"] "Boolean value");
    ("null", mkTypeInfo "null" BASIC (OneClass CNoneType) ["null"; "any"] "Null value");
    ("list", mkTypeInfo "list" COLLECTION (OneClass Clist)
                 ["list"; "array"; "any"] "List of items");
    ("array", mkTypeInfo "array" COLLECTION (OneClass Clist)
                 ["array"; "list"; "any"] "Array of items");
    ("tuple", mkTypeInfo "tuple" COLLECTION (OneClass Ctuple)
                 ["tuple"; "list"; "array"; "any"] "Tuple of items");
    ("set", mkTypeInfo "set" COLLECTION (OneClass Cset)
                 ["set"; "list"; "array"; "any"] "Set of items");
    ("dict", mkTypeInfo "dict" COLLECTION (OneClass Cdict)
                 ["dict"; "object"; "any"] "Dictionary");
    ("object", mkTypeInfo "object" COLLECTION (OneClass Cdict)
                 ["object"; "dict"; "any"] "Object");
    ("file", mkTypeInfo "file" SPECIAL (Named "file") ["file"; "any"] "File object");
    ("image", mkTypeInfo "image" SPECIAL (Named "image") ["image"; "file"; "any"] "Image file");
    ("audio", mkTypeInfo "audio" SPECIAL (Named "audio") ["audio"; "file"; "any"] "Audio file");
    ("video", mkTypeInfo "video" SPECIAL (Named "video") ["video"; "file"; "any"] "Video file");
    ("dataframe", mkTypeInfo "dataframe" SPECIAL (Named "pandas.DataFrame")
                 ["dataframe"; "object"; "any"] "Pandas DataFrame");
    ("tensor", mkTypeInfo "tensor" SPECIAL (Named "torch.Tensor")
                 ["tensor"; "numpy_array"; "any"] "PyTorch Tensor");
    ("numpy_array", mkTypeInfo "numpy_array" SPECIAL (Named "numpy.ndarray")
                 ["numpy_array"; "tensor"; "any"] "NumPy Array");
    ("any", mkTypeInfo "any" BASIC (OneClass Cobject) ["any"] "Any type") ].

Definition _initialize_type_registry : gmap string TypeInfo :=
  list_to_map registry_entries.

(** [matrix[type_name] = type_info.compatible_types] for every item. *)
Definition _build_compatibility_matrix (type_registry : gmap string TypeInfo)
  : gmap string (list string) :=
  compatible_types <$> type_registry.

(** The state of a [TypeValidationService] object. *)
Record TypeValidationService := mkService {
  type_registry : gmap string TypeInfo;
  type_compatibility : gmap string (list string)
}.

(** A service over a given registry: what [__init__] does once the registry
    is there. *)
Definition service_of (registry : gmap string TypeInfo) : TypeValidationService :=
  {| type_registry := registry;
     type_compatibility := _build_compatibility_matrix registry |}.

(** [TypeValidationService()] *)
Definition TypeValidationService_init : TypeValidationService :=
  service_of _initialize_type_registry.

(** [key in d] *)
Definition contains {V} (d : gmap string V) (key : string) : bool :=
  bool_decide (is_Some (d !! key)).

(** [d.get(key, [])] *)
Definition get_or_empty {V} (d : gmap string (list V)) (key : string) : list V :=
  default [] (d !! key).

(** [x in xs] on a list of strings *)
Definition str_in (x : string) (xs : list string) : bool :=
  bool_decide (x ∈ xs).

Definition are_types_compatible (self : TypeValidationService)
    (output_type input_type : string) : bool :=
  if negb (contains (type_registry self) output_type)
     || negb (contains (type_registry self) input_type)
  then false
  else if String.eqb output_type "any" || String.eqb input_type "any"
  then true
  else
    let compatible := get_or_empty (type_compatibility self) output_type in
    str_in input_type compatible.

Definition get_compatible_types (self : TypeValidationService)
    (output_type : string) : list string :=
  if negb (contains (type_registry self) output_type) then []
  else get_or_empty (type_compatibility self) output_type.

Definition validate_type_annotation (self : TypeValidationService)
    (annotation : string) : bool :=
  contains (type_registry self) annotation.

(** ** Node connections (backend) *)

(** A port dictionary: [{'name': ..., 'type': ...}]. *)
Record port := mkPort { port_name : string; port_type : string }.

(** A node dictionary. [inputs] and [outputs] hold what
    [node.get('inputs', [])] and [node.get('outputs', [])] return, so a node
    without the key has the empty list. *)
Record node := mkNode {
  node_id : string;
  inputs : list port;
  outputs : list port
}.

(** The [connection_info] dictionary; [suggestions] is present on
    incompatible pairs only. *)
Record connection_info := mkInfo {
  source_output : port;
  target_input : port;
  compatible : bool;
  reason : string;
  suggestions : option (list string)
}.

Record node_validation := mkNodeValidation {
  nv_valid : bool;
  valid_connections : list connection_info;
  invalid_connections : list connection_info;
  can_connect : bool
}.

(** The body of the inner loop of [validate_node_connection]: one
    (output, input) pair, appended to one of the two lists. *)
Definition check_pair (self : TypeValidationService) (output input_port : port)
    (acc : list connection_info * list connection_info)
  : list connection_info * list connection_info :=
  let is_compatible :=
    are_types_compatible self (port_type output) (port_type input_port) in
  if is_compatible then
    (acc.1 ++ [mkInfo output input_port is_compatible "Types are compatible" None], acc.2)
  else
    (acc.1,
     acc.2 ++ [mkInfo output input_port is_compatible
                 ("Cannot connect " +:+ port_type output +:+ " to " +:+ port_type input_port)
                 (Some (get_compatible_types self (port_type output)))]).

Definition validate_node_connection (self : TypeValidationService)
    (source_node target_node : node) : node_validation :=
  let source_outputs := outputs source_node in
  let target_inputs := inputs target_node in
  let lists :=
    fold_left (fun acc output =>
      fold_left (fun acc input_port => check_pair self output input_port acc)
                target_inputs acc)
      source_outputs ([], []) in
  {| nv_valid := bool_decide (0 < length lists.1);
     valid_connections := lists.1;
     invalid_connections := lists.2;
     can_connect := bool_decide (0 < length lists.1) |}.

(** ** Workflow validation (backend) *)

(** One end of a connection. Validation reads [nodeId] only; [port_ref]
    stands for the rest of the dictionary, the port the connection names. *)
Record endpoint := mkEndpoint { nodeId : string; port_ref : string }.

Record connection := mkConnection { source : endpoint; target : endpoint }.

(** [nodes] and [connections] hold what [workflow_data.get(..., [])]
    returns. *)
Record workflow_data := mkWorkflow {
  nodes : list node;
  connections : list connection
}.

(** An entry of [validation_results['errors']]; [details] is present on
    [incompatible_types] entries only. *)
Record validation_error := mkError {
  error_type : string;
  message : string;
  details : option (list connection_info)
}.

Record connection_validation := mkConnectionValidation {
  cv_connection : connection;
  cv_validation : node_validation
}.

Record validation_results := mkResults {
  valid : bool;
  errors : list validation_error;
  warnings : list string;
  connection_validations : list connection_validation
}.

Record WorkflowValidationService := mkWorkflowService {
  type_validator : TypeValidationService
}.

(** [WorkflowValidationService()] *)
Definition WorkflowValidationService_init : WorkflowValidationService :=
  {| type_validator := TypeValidationService_init |}.

Fixpoint _find_node_by_id (nodes : list node) (node_id' : string) : option node :=
  match nodes with
  | [] => None
  | n :: rest =>
      if String.eqb (node_id n) node_id' then Some n
      else _find_node_by_id rest node_id'
  end.

(** The body of the loop of [validate_workflow_connections] for one
    connection, on the results gathered so far. *)
Definition validate_one (self : WorkflowValidationService) (nodes : list node)
    (results : validation_results) (conn : connection)
  : validation_results :=
  let source_node_id := nodeId (source conn) in
  let target_node_id := nodeId (target conn) in
  match _find_node_by_id nodes source_node_id,
        _find_node_by_id nodes target_node_id with
  | Some source_node, Some target_node =>
      let connection_validation :=
        validate_node_connection (type_validator self) source_node target_node in
      let recorded :=
        connection_validations results
          ++ [mkConnectionValidation conn connection_validation] in
      if negb (can_connect connection_validation) then
        {| valid := false;
           errors := errors results
             ++ [mkError "incompatible_types"
                   ("Incompatible types in connection "
                      +:+ source_node_id +:+ " -> " +:+ target_node_id)
                   (Some (invalid_connections connection_validation))];
           warnings := warnings results;
           connection_validations := recorded |}
      else
        {| valid := valid results;
           errors := errors results;
           warnings := warnings results;
           connection_validations := recorded |}
  | _, _ =>
      {| valid := false;
         errors := errors results
           ++ [mkError "missing_node"
                 ("Node not found for connection "
                    +:+ source_node_id +:+ " -> " +:+ target_node_id)
                 None];
         warnings := warnings results;
         connection_validations := connection_validations results |}
  end.

Definition validate_workflow_connections (self : WorkflowValidationService)
    (workflow : workflow_data) : validation_results :=
  let validation_results :=
    {| valid := true; errors := []; warnings := []; connection_validations := [] |} in
  fold_left (validate_one self (nodes workflow)) (connections workflow)
    validation_results.

Definition get_workflow_errors (self : WorkflowValidationService)
    (workflow : workflow_data) : list validation_error :=
  errors (validate_workflow_connections self workflow).

Definition can_execute_workflow (self : WorkflowValidationService)
    (workflow : workflow_data) : bool :=
  valid (validate_workflow_connections self workflow).

(** ** The frontend service (TypeScript) *)

Module Frontend.

(** The [typeCompatibility] object literal. *)
Definition typeCompatibility : gmap string (list string) :=
  list_to_map
    [ ("string", ["string"; "any"]);
      ("number", ["number"; "integer"; "float"; "any"]);
      ("integer", ["integer"; "number"; "any"]);
      ("float", ["float"; "number"; "any"]);
      ("boolean", ["boolean"; "any"]);
      ("list", ["list"; "array"; "any"]);
      ("dict", ["dict"; "object"; "any"]);
      ("file", ["file"; "any"]);
      ("dataframe", ["dataframe"; "object"; "any"]);
      ("tensor", ["tensor"; "numpy_array"; "any"]);
      ("numpy_array", ["numpy_array"; "tensor"; "any"]) ].

(** The property names every object literal inherits from
    [Object.prototype]; each is bound to a function or an object, never to
    an array. *)
Definition object_prototype_keys : list string :=
  [ "constructor"; "__defineGetter__"; "__defineSetter__"; "hasOwnProperty";
    "__lookupGetter__"; "__lookupSetter__"; "isPrototypeOf";
    "propertyIsEnumerable"; "toString"; "valueOf"; "__proto__";
    "toLocaleString" ].

(** What [this.typeCompatibility[outputType] || []] evaluates to. *)
Inductive looked_up :=
  | AnArray (items : list string)
  | Inherited (key : string).

Definition lookup_or_empty (outputType : string) : looked_up :=
  match typeCompatibility !! outputType with
  | Some items => AnArray items
  | None =>
      if str_in outputType object_prototype_keys then Inherited outputType
      else AnArray []
  end.

(** [compatibleTypes.includes(inputType)]: an inherited member has no
    [includes], and calling it throws. *)
Definition includes (compatibleTypes : looked_up) (inputType : string)
  : outcome bool :=
  match compatibleTypes with
  | AnArray items => Returned (str_in inputType items)
  | Inherited _ => Raised "TypeError"
  end.

Definition areTypesCompatible (outputType inputType : string) : outcome bool :=
  if String.eqb outputType "any" || String.eqb inputType "any" then
    Returned true
  else
    let compatibleTypes := lookup_or_empty outputType in
    includes compatibleTypes inputType.

Definition getCompatibleTypes (outputType : string) : looked_up :=
  lookup_or_empty outputType.

End Frontend.

(** ** Python values *)

(** The values the services and the converter handle, as finite trees (no
    value holds itself). A float is known by its [repr] ("1.5", "nan",
    "inf"); [PyObject] is an instance of a class defined elsewhere, with the
    exception it raises when it is pickled, if any. The items of a [PyDict]
    are in insertion order. *)
#[local] Unset Elimination Schemes.
Inductive pyvalue :=
  | PyNone
  | PyBool (b : bool)
  | PyInt (n : Z)
  | PyFloat (repr : string)
  | PyStr (s : string)
  | PyBytes (b : string)
  | PyList (items : list pyvalue)
  | PyTuple (items : list pyvalue)
  | PySet (items : list pyvalue)
  | PyDict (items : list (pyvalue * pyvalue))
  | PyObject (cls : string) (pickle_error : option string).
#[local] Set Elimination Schemes.

#[global] Instance pyclass_eq_dec : EqDecision pyclass.
Proof. solve_decision. Defined.

(** [type(value)] *)
Definition type_of (value : pyvalue) : pyclass :=
  match value with
  | PyNone => CNoneType
  | PyBool _ => Cbool
  | PyInt _ => Cint
  | PyFloat _ => Cfloat
  | PyStr _ => Cstr
  | PyBytes _ => Cbytes
  | PyList _ => Clist
  | PyTuple _ => Ctuple
  | PySet _ => Cset
  | PyDict _ => Cdict
  | PyObject cls _ => Cuser cls
  end.

(** [issubclass(c, d)]: every class derives from [object], and [bool] from
    [int]. *)
Definition issubclass (c d : pyclass) : bool :=
  match d with
  | Cobject => true
  | Cint => bool_decide (c = Cint) || bool_decide (c = Cbool)
  | _ => bool_decide (c = d)
  end.

(** [isinstance(value, c)] *)
Definition isinstance (value : pyvalue) (c : pyclass) : bool :=
  issubclass (type_of value) c.

(** [isinstance(value, (c1, ..., cn))] *)
Definition isinstance_any (value : pyvalue) (cs : list pyclass) : bool :=
  existsb (isinstance value) cs.

(** [value is None] *)
Definition is_None (value : pyvalue) : bool :=
  match value with PyNone => true | _ => false end.

Definition infer_type_from_value (value : pyvalue) : string :=
  if is_None value then "null"
  else if isinstance value Cbool then "boolean"
  else if isinstance value Cint then "integer"
  else if isinstance value Cfloat then "float"
  else if isinstance value Cstr then "string"
  else if isinstance value Clist then "list"
  else if isinstance value Ctuple then "tuple"
  else if isinstance value Cset then "set"
  else if isinstance value Cdict then "dict"
  else "object".

(** ** The standard library the converter calls

    [json] and [pickle] belong to Python, not to the repository, and what
    they answer depends on more than their argument: on the interpreter
    (its recursion limit, its limit on the digits of an integer) and, for
    [pickle], on the classes of the objects. The converter is embedded over
    the four calls it makes. Each takes an object and returns an object or
    raises; nothing is assumed of them but what a statement names. *)
Record library := mkLibrary {
  json_dumps : pyvalue -> outcome pyvalue;
  json_loads : pyvalue -> outcome pyvalue;
  pickle_dumps : pyvalue -> outcome pyvalue;
  pickle_loads : pyvalue -> outcome pyvalue
}.

(** ** The converter *)

(** [n8n_data.get(key)], on a dictionary whose keys are [str]: [None] when
    the key is missing. *)
Definition get (n8n_data : gmap string pyvalue) (key : string) : pyvalue :=
  default PyNone (n8n_data !! key).

(** [data_type == name], for a name the source writes as a literal: a [str]
    equals the [str] with the same characters, and nothing else does. *)
Definition str_equals (data_type : pyvalue) (name : string) : bool :=
  match data_type with
  | PyStr s => String.eqb s name
  | _ => false
  end.

Definition python_to_n8n (lib : library) (python_data : pyvalue)
  : outcome (gmap string pyvalue) :=
  if isinstance_any python_data [Cstr; Cint; Cfloat; Cbool] then
    Returned (<["type" := PyStr "simple"]> (<["value" := python_data]> ∅))
  else if isinstance_any python_data [Clist; Cdict] then
    text ← json_dumps lib python_data;
    Returned (<["type" := PyStr "json"]> (<["value" := text]> ∅))
  else
    data ← pickle_dumps lib python_data;
    Returned (<["type" := PyStr "pickle"]> (<["value" := data]> ∅)).

Definition n8n_to_python (lib : library) (n8n_data : gmap string pyvalue)
    (expected_type : pyclass) : outcome pyvalue :=
  let data_type := get n8n_data "type" in
  let value := get n8n_data "value" in
  if str_equals data_type "simple" then Returned value
  else if str_equals data_type "json" then json_loads lib value
  else if str_equals data_type "pickle" then pickle_loads lib value
  else Returned value.

(** ** The type validation endpoint (backend) *)

Module Api.

(** [TypeValidationRequest] *)
Record TypeValidationRequest := mkRequest {
  output_type : string;
  input_type : string
}.

(** [TypeValidationResponse]; [suggestions] defaults to the empty list. *)
Record TypeValidationResponse := mkResponse {
  compatible : bool;
  reason : string;
  suggestions : list string
}.

(** [POST /api/type-validation/validate-types] *)
Definition validate_types (request : TypeValidationRequest)
  : TypeValidationResponse :=
  let validator := TypeValidationService_init in
  let compatible :=
    are_types_compatible validator (output_type request) (input_type request) in
  let response :=
    {| compatible := compatible;
       reason :=
         if compatible then "Types are compatible"
         else "Cannot connect " +:+ output_type request
                +:+ " to " +:+ input_type request;
       suggestions := [] |} in
  if negb compatible then
    {| compatible := Api.compatible response;
       reason := Api.reason response;
       suggestions := get_compatible_types validator (output_type request) |}
  else response.

End Api.

(** ** Connection validation in the frontend service (TypeScript) *)

Module FrontendService.

(** An entry of [results]. *)
Record PairResult := mkPairResult {
  sourceOutput : port;
  targetInput : port;
  compatible : bool;
  reason : string
}.

(** What [validateConnection] returns. *)
Record ValidationResult := mkValidationResult {
  valid : bool;
  results : list PairResult
}.

(** The inner loop, over the inputs of the target, for one output. A call
    of [areTypesCompatible] that throws ends the loops. *)
Fixpoint each_input (output : port) (targetInputs : list port)
    (results : list PairResult) : outcome (list PairResult) :=
  match targetInputs with
  | [] => Returned results
  | input :: rest =>
      isCompatible ← Frontend.areTypesCompatible (port_type output) (port_type input);
      each_input output rest
        (results ++
           [mkPairResult output input isCompatible
              (if isCompatible then "Types are compatible"
               else "Cannot connect " +:+ port_type output
                      +:+ " to " +:+ port_type input)])
  end.

(** The outer loop, over the outputs of the source. *)
Fixpoint each_output (sourceOutputs targetInputs : list port)
    (results : list PairResult) : outcome (list PairResult) :=
  match sourceOutputs with
  | [] => Returned results
  | output :: rest =>
      results' ← each_input output targetInputs results;
      each_output rest targetInputs results'
  end.

(** [sourceNode.outputs || []] and [targetNode.inputs || []] are the
    [outputs] and [inputs] of the node records. *)
Definition validateConnection (sourceNode targetNode : node)
  : outcome ValidationResult :=
  let sourceOutputs := outputs sourceNode in
  let targetInputs := inputs targetNode in
  results ← each_output sourceOutputs targetInputs [];
  Returned {| valid := existsb compatible results; results := results |}.

End FrontendService.

(** ** Conversion suggestions (frontend/src/utils/typeConversion.ts) *)

Module TypeConversion.

Record TypeConversionSuggestion := mkSuggestion {
  from : string;
  to : string;
  suggestion : string;
  code : string
}.

(** The [TYPE_CONVERSION_SUGGESTIONS] literal, in source order. *)
Definition suggestion_entries : list (string * TypeConversionSuggestion) :=
  [ ("list_to_array",
     mkSuggestion "list" "array" "Use list() to convert array to list"
       "list(array_data)");
    ("dict_to_object",
     mkSuggestion "dict" "object" "Use dict() to convert object to dictionary"
       "dict(object_data)");
    ("number_to_integer",
     mkSuggestion "number" "integer" "Use int() to convert number to integer"
       "int(number_data)");
    ("number_to_float",
     mkSuggestion "number" "float" "Use float() to convert number to float"
       "float(number_data)") ].

Definition TYPE_CONVERSION_SUGGESTIONS : gmap string TypeConversionSuggestion :=
  list_to_map suggestion_entries.

(** What [TYPE_CONVERSION_SUGGESTIONS[key] || null] evaluates to: an entry
    of the table, a member inherited from [Object.prototype], or [null]. *)
Inductive looked_up :=
  | Entry (found : TypeConversionSuggestion)
  | Inherited (key : string)
  | Null.

Definition getTypeConversionSuggestion (fromType toType : string) : looked_up :=
  let key := fromType +:+ "_to_" +:+ toType in
  match TYPE_CONVERSION_SUGGESTIONS !! key with
  | Some found => Entry found
  | None =>
      if str_in key Frontend.object_prototype_keys then Inherited key
      else Null
  end.

End TypeConversion.

(** ** Statements of the specification, in the terms of the code *)

(** [T] is registered in the service's registry. *)
Definition registered (self : TypeValidationService) (T : string) : Prop :=
  is_Some (type_registry self !! T).

(** The compatible set a registry entry declares for [T]; empty when [T]
    has no entry. *)
Definition declared_compatible (self : TypeValidationService) (T : string)
  : list string :=
  from_option compatible_types [] (type_registry self !! T).

(** The same for the frontend table. *)
Definition frontend_declared (T : string) : list string :=
  default [] (Frontend.typeCompatibility !! T).

(** [info] with another compatible set. *)
Definition with_compatible (compatible : list string) (info : TypeInfo) : TypeInfo :=
  {| name := name info; category := category info;
     python_type := python_type info;
     compatible_types := compatible;
     description := description info |}.

(** The (output, input) pairs of two nodes, in the order the nested loops
    of [validate_node_connection] visit them. *)
Definition port_pairs (source_node target_node : node) : list (port * port) :=
  list_prod (outputs source_node) (inputs target_node).

Definition pair_compatible (self : TypeValidationService) (p : port * port) : bool :=
  are_types_compatible self (port_type p.1) (port_type p.2).

Definition ports_of (info : connection_info) : port * port :=
  (source_output info, target_input info).

(** Both nodes of the connection are in the workflow and no output of the
    source can feed any input of the target. *)
Definition cannot_connect (self : WorkflowValidationService) (nodes : list node)
    (conn : connection) : bool :=
  match _find_node_by_id nodes (nodeId (source conn)),
        _find_node_by_id nodes (nodeId (target conn)) with
  | Some source_node, Some target_node =>
      negb (existsb (pair_compatible (type_validator self))
              (port_pairs source_node target_node))
  | _, _ => false
  end.

(** One of the two nodes of the connection is not in the workflow. *)
Definition missing_node (nodes : list node) (conn : connection) : bool :=
  match _find_node_by_id nodes (nodeId (source conn)),
        _find_node_by_id nodes (nodeId (target conn)) with
  | Some _, Some _ => false
  | _, _ => true
  end.

Definition is_incompatible_types (e : validation_error) : bool :=
  String.eqb (error_type e) "incompatible_types".

(** [ports !! name]: the first port of that name. *)
Definition find_port (ports : list port) (port_name' : string) : option port :=
  find (fun p => String.eqb (port_name p) port_name') ports.

(** The types of the two ports a connection names, when its nodes and
    ports exist. *)
Definition named_types (nodes : list node) (conn : connection)
  : option (string * string) :=
  source_node ← _find_node_by_id nodes (nodeId (source conn));
  target_node ← _find_node_by_id nodes (nodeId (target conn));
  output ← find_port (outputs source_node) (port_ref (source conn));
  input_port ← find_port (inputs target_node) (port_ref (target conn));
  Some (port_type output, port_type input_port).

(** The connection joins two ports whose types the resolver rejects. *)
Definition type_incompatible (self : WorkflowValidationService)
    (nodes : list node) (conn : connection) : Prop :=
  exists sourceType targetType,
    named_types nodes conn = Some (sourceType, targetType) /\
    are_types_compatible (type_validator self) sourceType targetType = false.

(** The entries [validate_node_connection] writes for a compatible and for
    an incompatible pair. *)
Definition valid_info_of (p : port * port) : connection_info :=
  mkInfo p.1 p.2 true "Types are compatible" None.

Definition invalid_info_of (self : TypeValidationService) (p : port * port)
  : connection_info :=
  mkInfo p.1 p.2 false
    ("Cannot connect " +:+ port_type p.1 +:+ " to " +:+ port_type p.2)
    (Some (get_compatible_types self (port_type p.1))).

(** The error one pass of the loop of [validate_workflow_connections]
    appends for a connection, if any. *)
Definition error_of (self : WorkflowValidationService) (nodes : list node)
    (conn : connection) : option validation_error :=
  match _find_node_by_id nodes (nodeId (source conn)),
        _find_node_by_id nodes (nodeId (target conn)) with
  | Some source_node, Some target_node =>
      let v := validate_node_connection (type_validator self) source_node target_node in
      if can_connect v then None
      else Some (mkError "incompatible_types"
                   ("Incompatible types in connection "
                      +:+ nodeId (source conn) +:+ " -> " +:+ nodeId (target conn))
                   (Some (invalid_connections v)))
  | _, _ =>
      Some (mkError "missing_node"
              ("Node not found for connection "
                 +:+ nodeId (source conn) +:+ " -> " +:+ nodeId (target conn))
              None)
  end.

(** The text of the [incompatible_types] entry for a connection. *)
Definition incompatible_message (conn : connection) : string :=
  "Incompatible types in connection "
    +:+ nodeId (source conn) +:+ " -> " +:+ nodeId (target conn).










(** The dictionary [{"type": data_type, "value": value}]. *)
Definition tagged (data_type : string) (value : pyvalue) : gmap string pyvalue :=
  <["type" := PyStr data_type]> (<["value" := value]> ∅).

(** The ["type"] entry [python_to_n8n] writes, by the class of the value. *)
Definition strategy_for (c : pyclass) : string :=
  match c with
  | Cstr | Cint | Cfloat | Cbool => "simple"
  | Clist | Cdict => "json"
  | Cobject | CNoneType | Cbytes | Ctuple | Cset | Cuser _ => "pickle"
  end.

(** The declared type of a wire dictionary: [n8n_data.get("type")]. *)
Definition get_type (n8n_data : gmap string pyvalue) : pyvalue :=
  get n8n_data "type".

(** The wire dictionary has the two entries ["type"] and ["value"] and no
    other, and its value is the whole Python value in the encoding of its
    class: the value itself, what [json.dumps] returned for it, or what
    [pickle.dumps] returned for it. *)
Definition carries (lib : library) (n8n_data : gmap string pyvalue)
    (value : pyvalue) : Prop :=
  dom n8n_data = ({[ "type"; "value" ]} : gset string) /\
  match type_of value with
  | Cstr | Cint | Cfloat | Cbool => n8n_data !! "value" = Some value
  | Clist | Cdict =>
      exists text,
        json_dumps lib value = Returned text /\ n8n_data !! "value" = Some text
  | Cobject | CNoneType | Cbytes | Ctuple | Cset | Cuser _ =>
      exists data,
        pickle_dumps lib value = Returned data /\ n8n_data !! "value" = Some data
  end.

(** One of the three names [n8n_to_python] asks about. *)
Definition known_tag (data_type : pyvalue) : bool :=
  str_equals data_type "simple" || str_equals data_type "json"
  || str_equals data_type "pickle".

(** A dictionary that [python_to_n8n] cannot have written: its ["type"] is
    none of the three names, or it has no ["value"]. *)
Definition malformed (n8n_data : gmap string pyvalue) : bool :=
  negb (known_tag (get n8n_data "type"))
  || negb (bool_decide (is_Some (n8n_data !! "value"))).

(** ** Calls of the library, as CPython 3.11 answers them *)

Definition list_of_pairs : pyvalue := PyList [PyTuple [PyInt 1; PyInt 2]].

Definition keyed_by_number : pyvalue := PyDict [(PyInt 1, PyStr "a")].

Definition plain_list : pyvalue := PyList [PyInt 1; PyFloat "2.5"; PyNone].

Definition quote : string := String (ascii_of_nat 34) EmptyString.

(** The text [{"1": "a"}]. *)
Definition keyed_text : string :=
  "{" +:+ quote +:+ "1" +:+ quote +:+ ": " +:+ quote +:+ "a" +:+ quote +:+ "}".

(** The four bytes of [pickle.dumps(None)]. *)
Definition pickled_None : string :=
  String (ascii_of_nat 128) (String (ascii_of_nat 4) "N.").



(** [json.loads('{')] raises [JSONDecodeError]. *)
Definition rejects_broken_text (lib : library) : Prop :=
  json_loads lib (PyStr "{") = Raised "JSONDecodeError".

(** The same value, written the same way. *)
Fixpoint pyvalue_eqb (a b : pyvalue) : bool :=
  match a, b with
  | PyNone, PyNone => true
  | PyBool x, PyBool y => Bool.eqb x y
  | PyInt x, PyInt y => Z.eqb x y
  | PyFloat x, PyFloat y => String.eqb x y
  | PyStr x, PyStr y => String.eqb x y
  | PyBytes x, PyBytes y => String.eqb x y
  | PyList l, PyList m | PyTuple l, PyTuple m | PySet l, PySet m =>
      (fix all (l m : list pyvalue) : bool :=
         match l, m with
         | [], [] => true
         | x :: l', y :: m' => pyvalue_eqb x y && all l' m'
         | _, _ => false
         end) l m
  | PyDict l, PyDict m =>
      (fix all_items (l m : list (pyvalue * pyvalue)) : bool :=
         match l, m with
         | [], [] => true
         | (k, x) :: l', (k', y) :: m' =>
             pyvalue_eqb k k' && pyvalue_eqb x y && all_items l' m'
         | _, _ => false
         end) l m
  | PyObject c e, PyObject c' e' => String.eqb c c' && bool_decide (e = e')
  | _, _ => false
  end.

(** A library that answers the calls above, and a few more, as CPython
    does, and no other call. *)
Definition sample_calls : library := {|
  json_dumps value :=
    if pyvalue_eqb value list_of_pairs then Returned (PyStr "[[1, 2]]")
    else if pyvalue_eqb value keyed_by_number then Returned (PyStr keyed_text)
    else if pyvalue_eqb value plain_list then Returned (PyStr "[1, 2.5, null]")
    else Raised "NotImplementedError";
  json_loads text :=
    match text with
    | PyStr s =>
        if String.eqb s "[[1, 2]]" then
          Returned (PyList [PyList [PyInt 1; PyInt 2]])
        else if String.eqb s keyed_text then
          Returned (PyDict [(PyStr "1", PyStr "a")])
        else if String.eqb s "[1, 2.5, null]" then Returned plain_list
        else if String.eqb s "{" then Raised "JSONDecodeError"
        else Raised "NotImplementedError"
    | PyBytes _ => Raised "NotImplementedError"
    | _ => Raised "TypeError"
    end;
  pickle_dumps value :=
    match value with
    | PyNone => Returned (PyBytes pickled_None)
    | PyObject _ (Some exn) => Raised exn
    | _ => Raised "NotImplementedError"
    end;
  pickle_loads data :=
    match data with
    | PyBytes b =>
        if String.eqb b pickled_None then Returned PyNone
        else Raised "NotImplementedError"
    | _ => Raised "TypeError"
    end
|}.

(** A string of [n] letters. *)
Fixpoint letters (n : nat) : string :=
  match n with
  | O => ""
  | S n' => String "a"%char (letters n')
  end.

(** The classes [infer_type_from_value] asks about, in its order. *)
Definition enumerated_classes : list pyclass :=
  [Cbool; Cint; Cfloat; Cstr; Clist; Ctuple; Cset; Cdict].

(** ** Sample data *)

(** Two nodes with two ports each: the first output fits no input, the
    second output fits the second input. *)
Definition node_A : node :=
  mkNode "A" [] [mkPort "text" "string"; mkPort "rows" "list"].
Definition node_B : node :=
  mkNode "B" [mkPort "count" "integer"; mkPort "items" "array"] [].
Definition by_text : connection :=
  mkConnection (mkEndpoint "A" "text") (mkEndpoint "B" "count").
Definition by_rows : connection :=
  mkConnection (mkEndpoint "A" "rows") (mkEndpoint "B" "items").
Definition mixed_ports_workflow : workflow_data :=
  mkWorkflow [node_A; node_B] [by_text].

(** Scenario B of the specification: [source:string -> sink:integer]. *)
Definition scenario_B_connection : connection :=
  mkConnection (mkEndpoint "source" "out") (mkEndpoint "sink" "in").
Definition scenario_B : workflow_data :=
  mkWorkflow
    [mkNode "source" [] [mkPort "out" "string"];
     mkNode "sink" [mkPort "in" "integer"] []]
    [scenario_B_connection].

(** The nodes of [test_node_connection_validation]. *)
Definition test_source_node : node := mkNode "" [] [mkPort "data" "list"].
Definition test_target_node : node := mkNode "" [mkPort "input" "array"] [].

Definition initial_results : validation_results :=
  {| valid := true; errors := []; warnings := []; connection_validations := [] |}.


(** ** Definitions for the further properties *)

(** The entries of the frontend [typeCompatibility] literal, by name. *)
Definition frontend_entries : list (string * list string) :=
  [ ("string", ["string"; "any"]);
    ("number", ["number"; "integer"; "float"; "any"]);
    ("integer", ["integer"; "number"; "any"]);
    ("float", ["float"; "number"; "any"]);
    ("boolean", ["boolean"; "any"]);
    ("list", ["list"; "array"; "any"]);
    ("dict", ["dict"; "object"; "any"]);
    ("file", ["file"; "any"]);
    ("dataframe", ["dataframe"; "object"; "any"]);
    ("tensor", ["tensor"; "numpy_array"; "any"]);
    ("numpy_array", ["numpy_array"; "tensor"; "any"]) ].

(** The text of the [missing_node] entry for a connection. *)
Definition missing_message (conn : connection) : string :=
  "Node not found for connection "
    +:+ nodeId (source conn) +:+ " -> " +:+ nodeId (target conn).

Definition is_missing_node (e : validation_error) : bool :=
  String.eqb (error_type e) "missing_node".

(** The entry one pass of the loop of [validate_workflow_connections]
    appends to [connection_validations] for a connection, if any. *)
Definition recorded_of (self : WorkflowValidationService) (nodes : list node)
    (conn : connection) : option connection_validation :=
  match _find_node_by_id nodes (nodeId (source conn)),
        _find_node_by_id nodes (nodeId (target conn)) with
  | Some source_node, Some target_node =>
      Some (mkConnectionValidation conn
              (validate_node_connection (type_validator self) source_node target_node))
  | _, _ => None
  end.

(** Some output of the source fits some input of the target. *)
Definition some_pair_fits (self : TypeValidationService)
    (source_node target_node : node) : Prop :=
  exists output input_port,
    output ∈ outputs source_node /\ input_port ∈ inputs target_node /\
    are_types_compatible self (port_type output) (port_type input_port) = true.

(** A workflow whose two connections form a cycle. *)
Definition loop_node (name : string) : node :=
  mkNode name [mkPort "in" "list"] [mkPort "out" "list"].
Definition cyclic_workflow : workflow_data :=
  mkWorkflow [loop_node "A"; loop_node "B"]
    [mkConnection (mkEndpoint "A" "out") (mkEndpoint "B" "in");
     mkConnection (mkEndpoint "B" "out") (mkEndpoint "A" "in")].

(** A workflow whose connection names a node that is not there. *)
Definition dangling_connection : connection :=
  mkConnection (mkEndpoint "A" "out") (mkEndpoint "ghost" "in").
Definition dangling_workflow : workflow_data :=
  mkWorkflow [loop_node "A"] [dangling_connection].

(** The ports of an entry of the frontend [results]. *)
Definition result_ports (r : FrontendService.PairResult) : port * port :=
  (FrontendService.sourceOutput r, FrontendService.targetInput r).

(** The answer of the frontend check on a pair of ports. *)
Definition frontend_pair (p : port * port) : outcome bool :=
  Frontend.areTypesCompatible (port_type p.1) (port_type p.2).

(** The entry [validateConnection] pushes for a pair and an answer. *)
Definition pair_result (p : port * port) (isCompatible : bool)
  : FrontendService.PairResult :=
  FrontendService.mkPairResult p.1 p.2 isCompatible
    (if isCompatible then "Types are compatible"
     else "Cannot connect " +:+ port_type p.1 +:+ " to " +:+ port_type p.2).

(** The two loops of [validateConnection] as one pass over the pairs. *)
Fixpoint classify (pairs : list (port * port))
    (results : list FrontendService.PairResult)
  : outcome (list FrontendService.PairResult) :=
  match pairs with
  | [] => Returned results
  | p :: rest =>
      isCompatible ← frontend_pair p;
      classify rest (results ++ [pair_result p isCompatible])
  end.

(** The entry records what the check answers on its ports. *)
Definition faithful_result (r : FrontendService.PairResult) : Prop :=
  frontend_pair (result_ports r) = Returned (FrontendService.compatible r).

(** The pairs of types that have a conversion suggestion. *)
Definition convertible_pairs : list (string * string) :=
  [("list", "array"); ("dict", "object"); ("number", "integer"); ("number", "float")].

(** The names [infer_type_from_value] can return. *)
Definition inferred_names : list string :=
  ["null"; "boolean"; "integer"; "float"; "string";
   "list"; "tuple"; "set"; "dict"; "object"].

(** * Properties *)

(** ** The compatibility check *)

Section Resolver.

Implicit Types (self : TypeValidationService) (o i T : string).

Lemma contains_true {V} (d : gmap string V) k :
  contains d k = true <-> is_Some (d !! k).
Proof. unfold contains. rewrite bool_decide_eq_true. reflexivity. Qed.

Lemma contains_false {V} (d : gmap string V) k :
  contains d k = false <-> d !! k = None.
Proof.
  unfold contains. rewrite bool_decide_eq_false, <- eq_None_not_Some.
  reflexivity.
Qed.

Lemma str_in_true x xs : str_in x xs = true <-> x ∈ xs.
Proof. unfold str_in. apply bool_decide_eq_true. Qed.

Lemma eqb_any s : String.eqb s "any" = true <-> s = "any".
Proof. apply String.eqb_eq. Qed.

(** What the three steps of [are_types_compatible] amount to, for any
    state of the service. *)
Lemma are_types_compatible_true self o i :
  are_types_compatible self o i = true <->
  registered self o /\ registered self i /\
  (o = "any" \/ i = "any" \/ i ∈ get_or_empty (type_compatibility self) o).
Proof.
  unfold are_types_compatible, registered.
  destruct (contains (type_registry self) o) eqn:Ho; simpl.
  2:{ apply contains_false in Ho. rewrite Ho. split; [discriminate|].
      intros [[? ?] _]. discriminate. }
  destruct (contains (type_registry self) i) eqn:Hi; simpl.
  2:{ apply contains_false in Hi. rewrite Hi. split; [discriminate|].
      intros (_ & [? ?] & _). discriminate. }
  apply contains_true in Ho, Hi.
  destruct (String.eqb o "any") eqn:Eo; simpl.
  { apply eqb_any in Eo. tauto. }
  destruct (String.eqb i "any") eqn:Ei; simpl.
  { apply eqb_any in Ei. tauto. }
  apply String.eqb_neq in Eo, Ei. rewrite str_in_true. tauto.
Qed.

Lemma matrix_of_registry registry T :
  get_or_empty (type_compatibility (service_of registry)) T
  = declared_compatible (service_of registry) T.
Proof.
  unfold get_or_empty, declared_compatible, service_of,
    _build_compatibility_matrix; simpl.
  rewrite lookup_fmap. destruct (registry !! T); reflexivity.
Qed.

Lemma registry_entries_nodup : NoDup (registry_entries.*1).
Proof. apply (bool_decide_unpack _). vm_compute. reflexivity. Qed.

Lemma registered_entry T info :
  type_registry TypeValidationService_init !! T = Some info ->
  (T, info) ∈ registry_entries.
Proof. apply elem_of_list_to_map_2. Qed.

(** Every entry of the shipped registry lists its own name. *)
Lemma entries_reflexive :
  Forall (fun e => e.1 ∈ compatible_types e.2) registry_entries.
Proof. apply (bool_decide_unpack _). vm_compute. reflexivity. Qed.

Lemma shipped_reflexive T :
  registered TypeValidationService_init T ->
  T ∈ declared_compatible TypeValidationService_init T.
Proof.
  intros [info Hinfo]. unfold declared_compatible. rewrite Hinfo. simpl.
  apply registered_entry in Hinfo.
  exact (proj1 (Forall_forall _ _) entries_reflexive _ Hinfo).
Qed.

Lemma any_registered : registered TypeValidationService_init "any".
Proof. eexists. vm_compute. reflexivity. Qed.

Lemma frontend_true o i :
  Frontend.areTypesCompatible o i = Returned true <->
  o = "any" \/ i = "any" \/ i ∈ frontend_declared o.
Proof.
  unfold Frontend.areTypesCompatible, frontend_declared,
    Frontend.lookup_or_empty.
  destruct (String.eqb o "any") eqn:Eo; simpl.
  { apply eqb_any in Eo. tauto. }
  destruct (String.eqb i "any") eqn:Ei; simpl.
  { apply eqb_any in Ei. tauto. }
  apply String.eqb_neq in Eo, Ei.
  destruct (Frontend.typeCompatibility !! o) as [items|]; simpl.
  - split.
    + intros [= H]. apply str_in_true in H. tauto.
    + intros [?|[?|H]]; try contradiction.
      apply str_in_true in H. rewrite H. reflexivity.
  - destruct (str_in o Frontend.object_prototype_keys); simpl.
    + split; [discriminate|]. intros [?|[?|H]]; try contradiction.
      inversion H.
    + assert (Hempty : str_in i [] = false) by reflexivity.
      rewrite Hempty. split; [discriminate|].
      intros [?|[?|H]]; try contradiction. inversion H.
Qed.

End Resolver.

(** C1 (as amended). The backend check returns true exactly when both names
    are registered and the names are equal, or one of them is ['any'], or
    the input type is in the compatible set the output type declares; the
    frontend check returns true exactly when one of the names is ['any'] or
    the input type is in the output type's entry of its table. *)
Theorem compatibility_characterised (outputType inputType : string) :
  (are_types_compatible TypeValidationService_init outputType inputType = true <->
     registered TypeValidationService_init outputType /\
     registered TypeValidationService_init inputType /\
     (outputType = inputType \/ outputType = "any" \/ inputType = "any" \/
      inputType ∈ declared_compatible TypeValidationService_init outputType))
  /\
  (Frontend.areTypesCompatible outputType inputType = Returned true <->
     outputType = "any" \/ inputType = "any" \/
     inputType ∈ frontend_declared outputType).
Proof.
  split; [|apply frontend_true].
  rewrite are_types_compatible_true.
  unfold TypeValidationService_init at 3. rewrite matrix_of_registry.
  fold TypeValidationService_init.
  split.
  - intros (Ho & Hi & H). repeat split; try assumption. tauto.
  - intros (Ho & Hi & H). repeat split; try assumption.
    destruct H as [->|H]; [|tauto].
    right. right. apply shipped_reflexive. assumption.
Qed.

(** C1, as the specification states it, fails: a name outside the registry
    (or outside the frontend table) is not compatible with itself. *)
Lemma equal_names_not_always_compatible :
  ~ (forall outputType inputType : string,
       are_types_compatible TypeValidationService_init outputType inputType = true <->
       (outputType = inputType \/ outputType = "any" \/ inputType = "any" \/
        inputType ∈ declared_compatible TypeValidationService_init outputType))
  /\
  ~ (forall outputType inputType : string,
       Frontend.areTypesCompatible outputType inputType = Returned true <->
       (outputType = inputType \/ outputType = "any" \/ inputType = "any" \/
        inputType ∈ frontend_declared outputType)).
Proof.
  split; intros H.
  - destruct (H "matrix" "matrix") as [_ H']. specialize (H' (or_introl eq_refl)).
    vm_compute in H'. discriminate.
  - destruct (H "matrix" "matrix") as [_ H']. specialize (H' (or_introl eq_refl)).
    vm_compute in H'. discriminate.
Qed.

(** C3. Every registered type is compatible with ['any'] in both
    directions. *)
Theorem any_is_universal (T : string) :
  registered TypeValidationService_init T ->
  are_types_compatible TypeValidationService_init T "any" = true /\
  are_types_compatible TypeValidationService_init "any" T = true.
Proof.
  intros HT. pose proof any_registered as Hany.
  split; apply are_types_compatible_true; (split; [|split]); auto.
Qed.

Lemma any_is_universal_witness :
  registered TypeValidationService_init "dataframe" /\
  are_types_compatible TypeValidationService_init "dataframe" "any" = true /\
  are_types_compatible TypeValidationService_init "any" "dataframe" = true.
Proof.
  assert (H : registered TypeValidationService_init "dataframe")
    by (eexists; vm_compute; reflexivity).
  split; [exact H | exact (any_is_universal "dataframe" H)].
Defined.

(** The answer for an output type depends on the service through three
    things only: whether the two names are registered, and the row of the
    output type in the compatibility matrix. *)
Lemma answer_reads_one_row (self self' : TypeValidationService) (A B : string) :
  contains (type_registry self) A = contains (type_registry self') A ->
  contains (type_registry self) B = contains (type_registry self') B ->
  type_compatibility self !! A = type_compatibility self' !! A ->
  are_types_compatible self A B = are_types_compatible self' A B.
Proof.
  intros HA HB Hrow. unfold are_types_compatible, get_or_empty.
  rewrite HA, HB, Hrow. reflexivity.
Qed.

Lemma contains_alter {V} (f : V -> V) (d : gmap string V) (C T : string) :
  contains (alter f C d) T = contains d T.
Proof.
  unfold contains. apply bool_decide_ext.
  destruct (decide (C = T)) as [->|Hne].
  - rewrite lookup_alter_eq, fmap_is_Some. reflexivity.
  - rewrite lookup_alter_ne by exact Hne. reflexivity.
Qed.

(** C7. The check reads the compatible set of the output type and no
    other: two services that register the same two names and hold the same
    row for the output type [A] give the same answer for [A] and [B],
    whatever their other rows are; so giving any other type [C], the input
    type [B] or a member of [A]'s set included, another compatible set
    changes no answer for [A]. Nothing makes the relation symmetric, and in
    the shipped registry it is not: a tuple may feed a list, a list may not
    feed a tuple. *)
Theorem compatibility_is_directional :
  (forall (self self' : TypeValidationService) (A B : string),
      contains (type_registry self) A = contains (type_registry self') A ->
      contains (type_registry self) B = contains (type_registry self') B ->
      type_compatibility self !! A = type_compatibility self' !! A ->
      are_types_compatible self A B = are_types_compatible self' A B)
  /\ (forall (registry : gmap string TypeInfo) (A B C : string)
             (compatible : list string),
        C <> A ->
        are_types_compatible
          (service_of (alter (with_compatible compatible) C registry)) A B
        = are_types_compatible (service_of registry) A B)
  /\ registered TypeValidationService_init "tuple"
  /\ registered TypeValidationService_init "list"
  /\ are_types_compatible TypeValidationService_init "tuple" "list" = true
  /\ are_types_compatible TypeValidationService_init "list" "tuple" = false.
Proof.
  split; [exact answer_reads_one_row | split].
  - intros registry A B C compatible Hne.
    apply answer_reads_one_row; cbn [service_of type_registry type_compatibility].
    + apply contains_alter.
    + apply contains_alter.
    + unfold _build_compatibility_matrix.
      rewrite !lookup_fmap, lookup_alter_ne by exact Hne. reflexivity.
  - split; [|split; [|split]];
      try (eexists; vm_compute; reflexivity); vm_compute; reflexivity.
Qed.

Lemma compatibility_is_directional_witness :
  "number" <> "integer" /\
  are_types_compatible TypeValidationService_init "integer" "number" = true /\
  are_types_compatible
    (service_of (alter (with_compatible ["float"; "any"]) "number"
                   _initialize_type_registry)) "integer" "float"
  = are_types_compatible TypeValidationService_init "integer" "float".
Proof.
  assert (H : "number" <> "integer") by discriminate.
  split; [exact H | split; [vm_compute; reflexivity |]].
  exact (proj1 (proj2 compatibility_is_directional) _initialize_type_registry
           "integer" "float" "number" ["float"; "any"] H).
Defined.

(** C9. When either name has no entry in the registry the backend check
    answers false, whatever the two names are: equal names and ['any'] on
    the other side are no exception. The check is a total function, it
    raises on no pair of names. *)
Theorem unregistered_is_incompatible
    (self : TypeValidationService) (output_type input_type : string) :
  type_registry self !! output_type = None \/
  type_registry self !! input_type = None ->
  are_types_compatible self output_type input_type = false.
Proof.
  intros H. unfold are_types_compatible.
  destruct H as [H|H]; apply contains_false in H; rewrite H; simpl.
  - reflexivity.
  - rewrite orb_true_r. reflexivity.
Qed.

Lemma unregistered_is_incompatible_witness :
  are_types_compatible TypeValidationService_init "matrix" "matrix" = false /\
  are_types_compatible TypeValidationService_init "matrix" "any" = false /\
  are_types_compatible TypeValidationService_init "any" "matrix" = false.
Proof.
  assert (H : type_registry TypeValidationService_init !! "matrix" = None)
    by (vm_compute; reflexivity).
  split; [|split].
  - exact (unregistered_is_incompatible _ "matrix" "matrix" (or_introl H)).
  - exact (unregistered_is_incompatible _ "matrix" "any" (or_introl H)).
  - exact (unregistered_is_incompatible _ "any" "matrix" (or_intror H)).
Defined.

(** ** Node connections and workflow validation *)

Section NodeConnection.

Variable self : TypeValidationService.

Lemma check_pairs_fold (pairs : list (port * port)) acc :
  fold_left (fun acc p => check_pair self p.1 p.2 acc) pairs acc
  = (acc.1 ++ map valid_info_of (List.filter (pair_compatible self) pairs),
     acc.2 ++ map (invalid_info_of self)
                (List.filter (fun p => negb (pair_compatible self p)) pairs)).
Proof.
  revert acc. induction pairs as [|p pairs IH]; intros [vs ivs]; simpl.
  - rewrite !app_nil_r. reflexivity.
  - rewrite IH. unfold check_pair, pair_compatible.
    destruct (are_types_compatible self (port_type p.1) (port_type p.2));
      simpl; rewrite <- ?app_assoc; reflexivity.
Qed.

Lemma inner_loop (output : port) (ins : list port) acc :
  fold_left (fun acc input_port => check_pair self output input_port acc) ins acc
  = fold_left (fun acc p => check_pair self p.1 p.2 acc) (map (pair output) ins) acc.
Proof.
  revert acc. induction ins as [|i ins IH]; intros acc; simpl; [reflexivity|].
  apply IH.
Qed.

Lemma nested_loops (outs ins : list port) acc :
  fold_left (fun acc output =>
               fold_left (fun acc input_port => check_pair self output input_port acc)
                         ins acc) outs acc
  = fold_left (fun acc p => check_pair self p.1 p.2 acc) (list_prod outs ins) acc.
Proof.
  revert acc. induction outs as [|o outs IH]; intros acc; simpl; [reflexivity|].
  rewrite fold_left_app, IH, inner_loop. reflexivity.
Qed.

Lemma valid_connections_eq source_node target_node :
  valid_connections (validate_node_connection self source_node target_node)
  = map valid_info_of
      (List.filter (pair_compatible self) (port_pairs source_node target_node)).
Proof.
  unfold validate_node_connection; simpl.
  rewrite nested_loops, check_pairs_fold. reflexivity.
Qed.

Lemma invalid_connections_eq source_node target_node :
  invalid_connections (validate_node_connection self source_node target_node)
  = map (invalid_info_of self)
      (List.filter (fun p => negb (pair_compatible self p))
         (port_pairs source_node target_node)).
Proof.
  unfold validate_node_connection; simpl.
  rewrite nested_loops, check_pairs_fold. reflexivity.
Qed.

Lemma some_kept {A} (f : A -> bool) (l : list A) :
  bool_decide (0 < length (List.filter f l)) = existsb f l.
Proof.
  induction l as [|a l IH]; simpl; [reflexivity|].
  destruct (f a); simpl; [reflexivity | exact IH].
Qed.

Lemma can_connect_existsb source_node target_node :
  can_connect (validate_node_connection self source_node target_node)
  = existsb (pair_compatible self) (port_pairs source_node target_node).
Proof.
  unfold validate_node_connection; simpl.
  rewrite nested_loops, check_pairs_fold; simpl.
  rewrite length_map. apply some_kept.
Qed.

End NodeConnection.

(** C8. [validate_node_connection] looks at every (output, input) pair of
    the two nodes: [can_connect] is true exactly when some pair is
    compatible, and [invalid_connections] lists every incompatible pair, in
    loop order. Workflow validation hands it the two nodes only, so two
    connections between the same nodes get the same verdict whatever ports
    they name. *)
Theorem node_connection_is_cross_product :
  (forall (self : TypeValidationService) (source_node target_node : node),
     (can_connect (validate_node_connection self source_node target_node) = true <->
        exists output input_port,
          output ∈ outputs source_node /\ input_port ∈ inputs target_node /\
          are_types_compatible self (port_type output) (port_type input_port) = true)
     /\ map ports_of
          (invalid_connections (validate_node_connection self source_node target_node))
        = List.filter (fun p => negb (pair_compatible self p))
            (port_pairs source_node target_node))
  /\
  (forall (ws : WorkflowValidationService) (nodes : list node)
          (results : validation_results) (conn conn' : connection),
     nodeId (source conn) = nodeId (source conn') ->
     nodeId (target conn) = nodeId (target conn') ->
     valid (validate_one ws nodes results conn)
       = valid (validate_one ws nodes results conn') /\
     errors (validate_one ws nodes results conn)
       = errors (validate_one ws nodes results conn') /\
     map cv_validation (connection_validations (validate_one ws nodes results conn))
       = map cv_validation (connection_validations (validate_one ws nodes results conn'))).
Proof.
  split.
  - intros self source_node target_node. split.
    + rewrite can_connect_existsb, existsb_exists. unfold port_pairs. split.
      * intros ([o i] & Hin & Hc). apply in_prod_iff in Hin as [Ho Hi].
        exists o, i. rewrite !list_elem_of_In. auto.
      * intros (o & i & Ho & Hi & Hc). exists (o, i).
        rewrite in_prod_iff, <- !list_elem_of_In. auto.
    + rewrite invalid_connections_eq, map_map.
      rewrite <- (map_id (List.filter _ _)) at 2.
      apply map_ext. intros [o i]. reflexivity.
  - intros ws nodes results conn conn' Hs Ht.
    unfold validate_one. rewrite Hs, Ht.
    destruct (_find_node_by_id nodes (nodeId (source conn'))) as [s|];
      [destruct (_find_node_by_id nodes (nodeId (target conn'))) as [t|]|];
      cbv zeta; try (split; [|split]; reflexivity).
    destruct (can_connect (validate_node_connection (type_validator ws) s t));
      cbn [negb valid errors connection_validations];
      (split; [|split]); try reflexivity;
      rewrite !map_app; reflexivity.
Qed.

Lemma node_connection_is_cross_product_witness :
  valid (validate_one WorkflowValidationService_init [node_A; node_B]
           initial_results by_text)
    = valid (validate_one WorkflowValidationService_init [node_A; node_B]
               initial_results by_rows) /\
  errors (validate_one WorkflowValidationService_init [node_A; node_B]
            initial_results by_text)
    = errors (validate_one WorkflowValidationService_init [node_A; node_B]
                initial_results by_rows) /\
  map cv_validation
      (connection_validations
         (validate_one WorkflowValidationService_init [node_A; node_B]
            initial_results by_text))
    = map cv_validation
        (connection_validations
           (validate_one WorkflowValidationService_init [node_A; node_B]
              initial_results by_rows)).
Proof.
  exact (proj2 node_connection_is_cross_product WorkflowValidationService_init
           [node_A; node_B] initial_results by_text by_rows eq_refl eq_refl).
Defined.

Section WorkflowValidation.

Variable self : WorkflowValidationService.
Variable nodes : list node.

Lemma validate_one_errors results conn :
  errors (validate_one self nodes results conn)
  = errors results ++ option_list (error_of self nodes conn).
Proof.
  unfold validate_one, error_of.
  destruct (_find_node_by_id nodes (nodeId (source conn))) as [s|];
    [destruct (_find_node_by_id nodes (nodeId (target conn))) as [t|]|];
    cbv zeta; try reflexivity.
  destruct (can_connect (validate_node_connection (type_validator self) s t));
    cbn [negb errors option_list]; [rewrite app_nil_r|]; reflexivity.
Qed.

Lemma validate_one_valid results conn :
  valid (validate_one self nodes results conn)
  = valid results && bool_decide (error_of self nodes conn = None).
Proof.
  unfold validate_one, error_of.
  destruct (_find_node_by_id nodes (nodeId (source conn))) as [s|];
    [destruct (_find_node_by_id nodes (nodeId (target conn))) as [t|]|];
    cbv zeta; cbn [valid]; rewrite ?andb_false_r; try reflexivity.
  destruct (can_connect (validate_node_connection (type_validator self) s t));
    cbn [negb valid]; [rewrite andb_true_r|rewrite andb_false_r]; reflexivity.
Qed.

Lemma loop_errors conns results :
  errors (fold_left (validate_one self nodes) conns results)
  = errors results ++ omap (error_of self nodes) conns.
Proof.
  revert results. induction conns as [|c conns IH]; intros results; simpl.
  - rewrite app_nil_r. reflexivity.
  - rewrite IH, validate_one_errors, <- app_assoc. f_equal.
    destruct (error_of self nodes c); reflexivity.
Qed.

Lemma loop_valid conns results :
  valid (fold_left (validate_one self nodes) conns results)
  = valid results
    && forallb (fun c => bool_decide (error_of self nodes c = None)) conns.
Proof.
  revert results. induction conns as [|c conns IH]; intros results; simpl.
  - rewrite andb_true_r. reflexivity.
  - rewrite IH, validate_one_valid, andb_assoc. reflexivity.
Qed.

Lemma error_of_cannot_connect conn :
  cannot_connect self nodes conn = true ->
  exists source_node target_node,
    _find_node_by_id nodes (nodeId (source conn)) = Some source_node /\
    _find_node_by_id nodes (nodeId (target conn)) = Some target_node /\
    error_of self nodes conn
    = Some (mkError "incompatible_types" (incompatible_message conn)
              (Some (map (invalid_info_of (type_validator self))
                       (port_pairs source_node target_node)))).
Proof.
  unfold cannot_connect, error_of.
  destruct (_find_node_by_id nodes (nodeId (source conn))) as [s|]; [|discriminate].
  destruct (_find_node_by_id nodes (nodeId (target conn))) as [t|]; [|discriminate].
  intros H. apply negb_true_iff in H. exists s, t. split; [reflexivity|].
  split; [reflexivity|]. cbv zeta.
  rewrite can_connect_existsb, H, invalid_connections_eq.
  do 3 f_equal.
  induction (port_pairs s t) as [|p ps IH]; [reflexivity|].
  simpl in H. apply orb_false_iff in H as [Hp Hps].
  simpl. rewrite Hp. simpl. rewrite (IH Hps). reflexivity.
Qed.

Lemma incompatible_entries conns :
  map message
    (List.filter is_incompatible_types (omap (error_of self nodes) conns))
  = map incompatible_message (List.filter (cannot_connect self nodes) conns).
Proof.
  induction conns as [|c conns IH]; [reflexivity|].
  cbn [omap list_omap List.filter].
  destruct (cannot_connect self nodes c) eqn:Hc.
  - destruct (error_of_cannot_connect c Hc) as (s & t & _ & _ & ->).
    cbn. f_equal. exact IH.
  - unfold cannot_connect in Hc. unfold error_of.
    destruct (_find_node_by_id nodes (nodeId (source c))) as [s|];
      [destruct (_find_node_by_id nodes (nodeId (target c))) as [t|]|];
      try exact IH.
    apply negb_false_iff in Hc. cbv zeta.
    rewrite can_connect_existsb, Hc. exact IH.
Qed.

End WorkflowValidation.

(** C2 (as amended). Validation walks every connection. A connection whose
    two nodes have no compatible (output, input) pair makes the result
    invalid, so that [can_execute_workflow] is false, and has an
    [incompatible_types] entry of its own among the errors, naming its two
    nodes and listing every pair of their ports; the entries of that kind
    are as many as such connections, in the order of the connections. *)
Theorem every_unconnectable_connection_is_reported
    (self : WorkflowValidationService) (workflow : workflow_data) (conn : connection) :
  conn ∈ connections workflow ->
  cannot_connect self (nodes workflow) conn = true ->
  valid (validate_workflow_connections self workflow) = false /\
  can_execute_workflow self workflow = false /\
  (exists source_node target_node,
     _find_node_by_id (nodes workflow) (nodeId (source conn)) = Some source_node /\
     _find_node_by_id (nodes workflow) (nodeId (target conn)) = Some target_node /\
     mkError "incompatible_types" (incompatible_message conn)
       (Some (map (invalid_info_of (type_validator self))
                (port_pairs source_node target_node)))
     ∈ get_workflow_errors self workflow) /\
  map message
    (List.filter is_incompatible_types (get_workflow_errors self workflow))
  = map incompatible_message
      (List.filter (cannot_connect self (nodes workflow)) (connections workflow)).
Proof.
  intros Hin Hc.
  unfold can_execute_workflow, get_workflow_errors, validate_workflow_connections.
  rewrite loop_valid, loop_errors. cbn [valid errors app].
  destruct (error_of_cannot_connect self (nodes workflow) conn Hc)
    as (s & t & Hs & Ht & He).
  assert (Hv : forallb (fun c => bool_decide (error_of self (nodes workflow) c = None))
                 (connections workflow) = false).
  { apply not_true_is_false. intros Hall.
    rewrite forallb_forall in Hall. apply list_elem_of_In in Hin.
    specialize (Hall _ Hin). apply bool_decide_eq_true in Hall. congruence. }
  rewrite Hv. split; [reflexivity|]. split; [reflexivity|]. split.
  - exists s, t. split; [exact Hs|]. split; [exact Ht|].
    apply list_elem_of_omap. exists conn. split; assumption.
  - apply incompatible_entries.
Qed.

Lemma every_unconnectable_connection_is_reported_witness :
  valid (validate_workflow_connections WorkflowValidationService_init scenario_B) = false /\
  can_execute_workflow WorkflowValidationService_init scenario_B = false /\
  map message
    (List.filter is_incompatible_types
       (get_workflow_errors WorkflowValidationService_init scenario_B))
  = ["Incompatible types in connection source -> sink"].
Proof.
  pose proof
    (every_unconnectable_connection_is_reported WorkflowValidationService_init
       scenario_B scenario_B_connection (list_elem_of_here _ _) eq_refl) as H.
  split; [exact (proj1 H) | split; [exact (proj1 (proj2 H)) |]].
  exact (proj2 (proj2 (proj2 H))).
Defined.

(** C2, as the specification states it, fails: a connection that joins a
    [string] output to an [integer] input passes validation when the two
    nodes have some other pair of ports that fits. *)
Lemma incompatible_connection_can_pass :
  ~ (forall (self : WorkflowValidationService) (workflow : workflow_data),
       (exists conn, conn ∈ connections workflow /\
                     type_incompatible self (nodes workflow) conn) ->
       valid (validate_workflow_connections self workflow) = false).
Proof.
  intros H.
  assert (Hvalid : valid (validate_workflow_connections
                            WorkflowValidationService_init mixed_ports_workflow) = true)
    by (vm_compute; reflexivity).
  rewrite (H WorkflowValidationService_init mixed_ports_workflow) in Hvalid;
    [discriminate|].
  exists by_text. split; [apply list_elem_of_here|].
  exists "string", "integer". split; vm_compute; reflexivity.
Qed.

(** ** Type inference from values *)

(** C10. [bool] is asked about before [int]: every boolean is inferred as
    ['boolean'] although it is an instance of [int] too, ['integer'] is
    inferred for the integers that are not booleans and for nothing else,
    and a value of none of the enumerated classes is an ['object']. *)
Theorem bool_is_inferred_before_int :
  (forall b, infer_type_from_value (PyBool b) = "boolean" /\
             isinstance (PyBool b) Cint = true) /\
  (forall value,
     isinstance value Cint = true -> isinstance value Cbool = false ->
     infer_type_from_value value = "integer") /\
  (forall value,
     infer_type_from_value value = "integer" ->
     isinstance value Cbool = false /\ exists n, value = PyInt n) /\
  (forall value,
     is_None value = false ->
     isinstance_any value enumerated_classes = false ->
     infer_type_from_value value = "object").
Proof.
  split; [|split; [|split]].
  - intros b. split; reflexivity.
  - intros [] Hint Hbool; try discriminate. reflexivity.
  - intros [] H; try discriminate. split; [reflexivity|]. eexists. reflexivity.
  - intros [] Hnone Hany; try discriminate; reflexivity.
Qed.

Lemma bool_is_inferred_before_int_witness :
  infer_type_from_value (PyInt 7) = "integer" /\
  infer_type_from_value (PyBytes "raw") = "object" /\
  infer_type_from_value (PyObject "DataFrame" None) = "object".
Proof.
  split; [|split].
  - exact (proj1 (proj2 bool_is_inferred_before_int) (PyInt 7) eq_refl eq_refl).
  - exact (proj2 (proj2 (proj2 bool_is_inferred_before_int))
             (PyBytes "raw") eq_refl eq_refl).
  - exact (proj2 (proj2 (proj2 bool_is_inferred_before_int))
             (PyObject "DataFrame" None) eq_refl eq_refl).
Defined.

(** ** The converter *)

Section Dictionaries.

Context (data_type : string) (value : pyvalue).

Lemma lookup_tagged_type : tagged data_type value !! "type" = Some (PyStr data_type).
Proof. unfold tagged. apply lookup_insert_eq. Qed.

Lemma lookup_tagged_value : tagged data_type value !! "value" = Some value.
Proof.
  unfold tagged. rewrite lookup_insert_ne by discriminate. apply lookup_insert_eq.
Qed.

Lemma get_tagged_type : get (tagged data_type value) "type" = PyStr data_type.
Proof. unfold get. rewrite lookup_tagged_type. reflexivity. Qed.

Lemma get_tagged_value : get (tagged data_type value) "value" = value.
Proof. unfold get. rewrite lookup_tagged_value. reflexivity. Qed.

Lemma dom_tagged :
  dom (tagged data_type value) = ({[ "type"; "value" ]} : gset string).
Proof. unfold tagged. rewrite !dom_insert_L, dom_empty_L. set_solver. Qed.

End Dictionaries.

Section Branches.

Context (lib : library).

(** The three branches of [python_to_n8n], by the class of the value. *)
Lemma python_to_n8n_by_class python_data :
  python_to_n8n lib python_data
  = match type_of python_data with
    | Cstr | Cint | Cfloat | Cbool => Returned (tagged "simple" python_data)
    | Clist | Cdict =>
        text ← json_dumps lib python_data; Returned (tagged "json" text)
    | Cobject | CNoneType | Cbytes | Ctuple | Cset | Cuser _ =>
        data ← pickle_dumps lib python_data; Returned (tagged "pickle" data)
    end.
Proof. destruct python_data; reflexivity. Qed.

(** The four branches of [n8n_to_python], by the ["type"] entry. *)
Lemma n8n_to_python_simple n8n_data expected_type :
  get n8n_data "type" = PyStr "simple" ->
  n8n_to_python lib n8n_data expected_type = Returned (get n8n_data "value").
Proof. intros H. unfold n8n_to_python. rewrite H. reflexivity. Qed.

Lemma n8n_to_python_json n8n_data expected_type :
  get n8n_data "type" = PyStr "json" ->
  n8n_to_python lib n8n_data expected_type = json_loads lib (get n8n_data "value").
Proof. intros H. unfold n8n_to_python. rewrite H. reflexivity. Qed.

Lemma n8n_to_python_pickle n8n_data expected_type :
  get n8n_data "type" = PyStr "pickle" ->
  n8n_to_python lib n8n_data expected_type = pickle_loads lib (get n8n_data "value").
Proof. intros H. unfold n8n_to_python. rewrite H. reflexivity. Qed.

Lemma n8n_to_python_other n8n_data expected_type :
  known_tag (get n8n_data "type") = false ->
  n8n_to_python lib n8n_data expected_type = Returned (get n8n_data "value").
Proof.
  unfold known_tag, n8n_to_python. intros H.
  apply orb_false_iff in H as [H Hpickle]. apply orb_false_iff in H as [Hsimple Hjson].
  rewrite Hsimple, Hjson, Hpickle. reflexivity.
Qed.

Lemma decode_tagged_simple value expected_type :
  n8n_to_python lib (tagged "simple" value) expected_type = Returned value.
Proof.
  rewrite n8n_to_python_simple by apply get_tagged_type.
  rewrite get_tagged_value. reflexivity.
Qed.

Lemma decode_tagged_json text expected_type :
  n8n_to_python lib (tagged "json" text) expected_type = json_loads lib text.
Proof.
  rewrite n8n_to_python_json by apply get_tagged_type.
  rewrite get_tagged_value. reflexivity.
Qed.



End Branches.

Section SampleCalls.






End SampleCalls.




(** C5 (as amended). [n8n_to_python] never looks at the expected type. A
    dictionary tagged ["simple"], or with a tag that is none of the three
    names, decodes to its value as it is; one tagged ["json"] or ["pickle"]
    decodes to whatever [json.loads] or [pickle.loads] makes of its value;
    so decoding raises only what one of these two calls raises. *)
Theorem decode_ignores_expected_type :
  (forall lib n8n_data expected_type expected_type',
     n8n_to_python lib n8n_data expected_type
     = n8n_to_python lib n8n_data expected_type') /\
  (forall lib n8n_data expected_type,
     get n8n_data "type" = PyStr "simple" ->
     n8n_to_python lib n8n_data expected_type = Returned (get n8n_data "value")) /\
  (forall lib n8n_data expected_type,
     known_tag (get n8n_data "type") = false ->
     n8n_to_python lib n8n_data expected_type = Returned (get n8n_data "value")) /\
  (forall lib n8n_data expected_type,
     get n8n_data "type" = PyStr "json" ->
     n8n_to_python lib n8n_data expected_type
     = json_loads lib (get n8n_data "value")) /\
  (forall lib n8n_data expected_type,
     get n8n_data "type" = PyStr "pickle" ->
     n8n_to_python lib n8n_data expected_type
     = pickle_loads lib (get n8n_data "value")) /\
  (forall lib n8n_data expected_type exn,
     n8n_to_python lib n8n_data expected_type = Raised exn ->
     (get n8n_data "type" = PyStr "json" /\
      json_loads lib (get n8n_data "value") = Raised exn) \/
     (get n8n_data "type" = PyStr "pickle" /\
      pickle_loads lib (get n8n_data "value") = Raised exn)).
Proof.
  split; [reflexivity|].
  split; [exact n8n_to_python_simple|].
  split; [exact n8n_to_python_other|].
  split; [exact n8n_to_python_json|].
  split; [exact n8n_to_python_pickle|].
  intros lib n8n_data expected_type exn. unfold n8n_to_python. cbv zeta.
  destruct (get n8n_data "type") as [| | | |s| | | | | |]; cbn [str_equals];
    try discriminate.
  destruct (String.eqb s "simple") eqn:Esimple; [discriminate|].
  destruct (String.eqb s "json") eqn:Ejson.
  { apply String.eqb_eq in Ejson. subst s. intros H. left. split; [reflexivity | exact H]. }
  destruct (String.eqb s "pickle") eqn:Epickle; [|discriminate].
  apply String.eqb_eq in Epickle. subst s. intros H. right.
  split; [reflexivity | exact H].
Qed.

Lemma decode_ignores_expected_type_witness :
  n8n_to_python sample_calls (tagged "binary" (PyStr "payload")) Cint
    = Returned (PyStr "payload") /\
  n8n_to_python sample_calls (tagged "simple" (PyStr "hello")) Cint
    = Returned (PyStr "hello") /\
  n8n_to_python sample_calls (tagged "json" (PyInt 5)) Cdict
    = json_loads sample_calls (PyInt 5).
Proof.
  split; [|split].
  - exact (proj1 (proj2 (proj2 decode_ignores_expected_type))
             sample_calls (tagged "binary" (PyStr "payload")) Cint eq_refl).
  - exact (proj1 (proj2 decode_ignores_expected_type)
             sample_calls (tagged "simple" (PyStr "hello")) Cint eq_refl).
  - exact (proj1 (proj2 (proj2 (proj2 decode_ignores_expected_type)))
             sample_calls (tagged "json" (PyInt 5)) Cdict eq_refl).
Defined.

(** C5, as the specification states it, fails, whatever the library does: a
    string decodes where an integer is expected although the resolver
    rejects the pair, whether the declared type is read off the value or
    off the ["type"] entry; a dictionary with no entry at all decodes to
    [None] without an error; and a text that is not JSON fails with the
    error of [json.loads], not with a [CodecError]. *)
Lemma mismatch_is_not_detected :
  ~ (exists lib : library,
       forall (value : pyvalue) (expected : string) (info : TypeInfo) (cls : pyclass),
         type_registry TypeValidationService_init !! expected = Some info ->
         python_type info = OneClass cls ->
         are_types_compatible TypeValidationService_init
           (infer_type_from_value value) expected = false ->
         n8n_to_python lib (tagged "simple" value) cls = Raised "TypeMismatch")
  /\ ~ (exists lib : library,
          forall (n8n_data : gmap string pyvalue) (declared expected : string)
                 (info : TypeInfo) (cls : pyclass),
            get_type n8n_data = PyStr declared ->
            type_registry TypeValidationService_init !! expected = Some info ->
            python_type info = OneClass cls ->
            are_types_compatible TypeValidationService_init declared expected = false ->
            n8n_to_python lib n8n_data cls = Raised "TypeMismatch")
  /\ ~ (exists lib : library,
          forall (n8n_data : gmap string pyvalue) (expected_type : pyclass),
            malformed n8n_data = true ->
            n8n_to_python lib n8n_data expected_type = Raised "CodecError")
  /\ ~ (exists lib : library,
          rejects_broken_text lib /\
          forall (n8n_data : gmap string pyvalue) (expected_type : pyclass)
                 (exn : string),
            n8n_to_python lib n8n_data expected_type = Raised exn ->
            exn = "CodecError")
  /\ rejects_broken_text sample_calls
  /\ n8n_to_python sample_calls (tagged "simple" (PyStr "hello")) Cint
     = Returned (PyStr "hello")
  /\ n8n_to_python sample_calls ∅ Cdict = Returned PyNone
  /\ n8n_to_python sample_calls (tagged "json" (PyStr "{")) Cdict
     = Raised "JSONDecodeError".
Proof.
  split; [|split; [|split; [|split; [|split; [|split; [|split]]]]]].
  - intros [lib H].
    specialize (H (PyStr "hello") "integer" _ Cint eq_refl eq_refl eq_refl).
    rewrite decode_tagged_simple in H. discriminate H.
  - intros [lib H].
    specialize (H (tagged "simple" (PyStr "hello")) "simple" "integer" _ Cint
                  eq_refl eq_refl eq_refl eq_refl).
    rewrite decode_tagged_simple in H. discriminate H.
  - intros [lib H]. specialize (H ∅ Cdict eq_refl). discriminate H.
  - intros (lib & Hbroken & H).
    specialize (H (tagged "json" (PyStr "{")) Cdict "JSONDecodeError").
    rewrite decode_tagged_json in H. specialize (H Hbroken). discriminate H.
  - reflexivity.
  - reflexivity.
  - reflexivity.
  - reflexivity.
Qed.

(** C6 (as amended). [python_to_n8n] chooses the encoding by the class of
    the value alone: strings, integers, floats and booleans are tagged
    ["simple"], lists and dictionaries ["json"], everything else
    ["pickle"]; and the dictionary it returns carries the whole value in
    that encoding, whatever its size, and nothing else. *)
Theorem encoding_is_chosen_by_class (lib : library) (python_data : pyvalue)
    (n8n_data : gmap string pyvalue) :
  python_to_n8n lib python_data = Returned n8n_data ->
  get_type n8n_data = PyStr (strategy_for (type_of python_data)) /\
  carries lib n8n_data python_data.
Proof.
  rewrite python_to_n8n_by_class. unfold carries, get_type.
  destruct python_data; cbn [type_of strategy_for];
    try (intros [= <-];
         split; [apply get_tagged_type |];
         split; [apply dom_tagged | apply lookup_tagged_value]).
  - destruct (pickle_dumps lib PyNone) as [data|] eqn:E; [|discriminate].
    intros [= <-]. split; [apply get_tagged_type |].
    split; [apply dom_tagged |]. exists data.
    split; [reflexivity | apply lookup_tagged_value].
  - destruct (pickle_dumps lib (PyBytes b)) as [data|] eqn:E; [|discriminate].
    intros [= <-]. split; [apply get_tagged_type |].
    split; [apply dom_tagged |]. exists data.
    split; [reflexivity | apply lookup_tagged_value].
  - destruct (json_dumps lib (PyList items)) as [text|] eqn:E; [|discriminate].
    intros [= <-]. split; [apply get_tagged_type |].
    split; [apply dom_tagged |]. exists text.
    split; [reflexivity | apply lookup_tagged_value].
  - destruct (pickle_dumps lib (PyTuple items)) as [data|] eqn:E; [|discriminate].
    intros [= <-]. split; [apply get_tagged_type |].
    split; [apply dom_tagged |]. exists data.
    split; [reflexivity | apply lookup_tagged_value].
  - destruct (pickle_dumps lib (PySet items)) as [data|] eqn:E; [|discriminate].
    intros [= <-]. split; [apply get_tagged_type |].
    split; [apply dom_tagged |]. exists data.
    split; [reflexivity | apply lookup_tagged_value].
  - destruct (json_dumps lib (PyDict items)) as [text|] eqn:E; [|discriminate].
    intros [= <-]. split; [apply get_tagged_type |].
    split; [apply dom_tagged |]. exists text.
    split; [reflexivity | apply lookup_tagged_value].
  - destruct (pickle_dumps lib (PyObject cls pickle_error)) as [data|] eqn:E;
      [|discriminate].
    intros [= <-]. split; [apply get_tagged_type |].
    split; [apply dom_tagged |]. exists data.
    split; [reflexivity | apply lookup_tagged_value].
Qed.

Lemma encoding_is_chosen_by_class_witness :
  (get_type (tagged "json" (PyStr "[[1, 2]]")) = PyStr "json" /\
   carries sample_calls (tagged "json" (PyStr "[[1, 2]]")) list_of_pairs) /\
  (get_type (tagged "pickle" (PyBytes pickled_None)) = PyStr "pickle" /\
   carries sample_calls (tagged "pickle" (PyBytes pickled_None)) PyNone).
Proof.
  split.
  - exact (encoding_is_chosen_by_class sample_calls list_of_pairs
             (tagged "json" (PyStr "[[1, 2]]")) eq_refl).
  - exact (encoding_is_chosen_by_class sample_calls PyNone
             (tagged "pickle" (PyBytes pickled_None)) eq_refl).
Defined.

Lemma length_letters n : String.length (letters n) = n.
Proof.
  induction n as [|n IH]; [reflexivity|].
  cbn [letters String.length]. rewrite IH. reflexivity.
Qed.

(** C6, as the specification states it, fails, whatever the library does:
    no size threshold makes the encoder replace a value by a reference; a
    string longer than any given threshold is still sent whole under
    ["simple"]. *)
Lemma large_values_are_sent_inline :
  ~ (exists (lib : library) (threshold : nat),
       forall s : string,
         threshold < String.length s ->
         python_to_n8n lib (PyStr s) <> Returned (tagged "simple" (PyStr s))).
Proof.
  intros (lib & threshold & H).
  apply (H (letters (S threshold))); [rewrite length_letters; lia | reflexivity].
Qed.

(** ** The repository's tests

    The assertions of backend/tests/test_type_validation.py and of
    frontend/tests/unit/TypeValidationService.test.ts, on the embedding. *)

Example test_basic_type_compatibility :
  are_types_compatible TypeValidationService_init "string" "string" = true /\
  are_types_compatible TypeValidationService_init "number" "integer" = true /\
  are_types_compatible TypeValidationService_init "integer" "number" = true /\
  are_types_compatible TypeValidationService_init "boolean" "boolean" = true.
Proof. vm_compute. auto. Qed.

Example test_collection_type_compatibility :
  are_types_compatible TypeValidationService_init "list" "array" = true /\
  are_types_compatible TypeValidationService_init "array" "list" = true /\
  are_types_compatible TypeValidationService_init "dict" "object" = true /\
  are_types_compatible TypeValidationService_init "object" "dict" = true.
Proof. vm_compute. auto. Qed.

Example test_incompatible_types :
  are_types_compatible TypeValidationService_init "string" "number" = false /\
  are_types_compatible TypeValidationService_init "list" "dict" = false /\
  are_types_compatible TypeValidationService_init "boolean" "string" = false.
Proof. vm_compute. auto. Qed.

Example test_any_type_compatibility :
  are_types_compatible TypeValidationService_init "any" "string" = true /\
  are_types_compatible TypeValidationService_init "string" "any" = true /\
  are_types_compatible TypeValidationService_init "any" "any" = true.
Proof. vm_compute. auto. Qed.

Example test_get_compatible_types :
  get_compatible_types TypeValidationService_init "string" = ["string"; "any"] /\
  get_compatible_types TypeValidationService_init "list" = ["list"; "array"; "any"].
Proof. vm_compute. auto. Qed.

Example test_node_connection_validation :
  can_connect (validate_node_connection TypeValidationService_init
                 test_source_node test_target_node) = true /\
  length (valid_connections (validate_node_connection TypeValidationService_init
                               test_source_node test_target_node)) = 1 /\
  length (invalid_connections (validate_node_connection TypeValidationService_init
                                 test_source_node test_target_node)) = 0.
Proof. vm_compute. auto. Qed.

Example frontend_tests :
  Frontend.areTypesCompatible "string" "string" = Returned true /\
  Frontend.areTypesCompatible "number" "integer" = Returned true /\
  Frontend.areTypesCompatible "list" "array" = Returned true /\
  Frontend.areTypesCompatible "string" "number" = Returned false /\
  Frontend.areTypesCompatible "list" "dict" = Returned false /\
  Frontend.areTypesCompatible "boolean" "string" = Returned false /\
  Frontend.areTypesCompatible "any" "string" = Returned true /\
  Frontend.areTypesCompatible "string" "any" = Returned true /\
  Frontend.getCompatibleTypes "string" = Frontend.AnArray ["string"; "any"].
Proof. vm_compute. repeat (split; [reflexivity|]). reflexivity. Qed.

(** The frontend table has no entry for ['array']; a name inherited from
    [Object.prototype] makes the call throw. *)
Example frontend_gaps :
  Frontend.areTypesCompatible "array" "list" = Returned false /\
  Frontend.areTypesCompatible "toString" "string" = Raised "TypeError".
Proof. vm_compute. auto. Qed.

(** Scenario A of the specification: [source:list -> sink:array] validates. *)
Example scenario_A :
  can_execute_workflow WorkflowValidationService_init
    (mkWorkflow
       [mkNode "source" [] [mkPort "out" "list"];
        mkNode "sink" [mkPort "in" "array"] []]
       [scenario_B_connection]) = true.
Proof. vm_compute. reflexivity. Qed.

(** The connection of [mixed_ports_workflow] raises no error at all. *)
Example mixed_ports_pass :
  get_workflow_errors WorkflowValidationService_init mixed_ports_workflow = [].
Proof. vm_compute. reflexivity. Qed.

(** * Further properties of the code *)

(** ** Suggestions and supported annotations (backend) *)

Section Suggestions.

Implicit Types (self : TypeValidationService) (o i T : string).

Lemma get_compatible_types_registered self o i :
  i ∈ get_compatible_types self o ->
  registered self o /\ i ∈ get_or_empty (type_compatibility self) o.
Proof.
  unfold get_compatible_types.
  destruct (contains (type_registry self) o) eqn:Ho; simpl.
  - apply contains_true in Ho. auto.
  - intros H. inversion H.
Qed.

(** Every name in a compatible set of the shipped registry has an entry
    of its own. *)
Lemma entries_closed :
  Forall (fun e => Forall (fun T => T ∈ registry_entries.*1) (compatible_types e.2))
         registry_entries.
Proof. apply (bool_decide_unpack _). vm_compute. reflexivity. Qed.

(** Every compatible set of the shipped registry holds ['any']. *)
Lemma entries_accept_any :
  Forall (fun e => "any" ∈ compatible_types e.2) registry_entries.
Proof. apply (bool_decide_unpack _). vm_compute. reflexivity. Qed.

Lemma key_registered T :
  T ∈ registry_entries.*1 -> registered TypeValidationService_init T.
Proof.
  intros H. apply list_elem_of_fmap in H as ([k info] & -> & Hin).
  exists info. apply elem_of_list_to_map_1; [apply registry_entries_nodup | exact Hin].
Qed.

Lemma shipped_matrix T :
  get_or_empty (type_compatibility TypeValidationService_init) T
  = declared_compatible TypeValidationService_init T.
Proof. exact (matrix_of_registry _initialize_type_registry T). Qed.

Lemma shipped_suggestion_registered o i :
  i ∈ get_compatible_types TypeValidationService_init o ->
  registered TypeValidationService_init i.
Proof.
  intros H. apply get_compatible_types_registered in H as [[info Hinfo] Hi].
  rewrite shipped_matrix in Hi.
  unfold declared_compatible in Hi. rewrite Hinfo in Hi. simpl in Hi.
  apply registered_entry in Hinfo.
  pose proof (proj1 (Forall_forall _ _) entries_closed _ Hinfo) as Hclosed.
  apply key_registered. exact (proj1 (Forall_forall _ _) Hclosed _ Hi).
Qed.

End Suggestions.

(** X1. Whatever the state of the service, a type that
    [get_compatible_types] lists for an output type is accepted by
    [are_types_compatible] as soon as it is registered itself; for a name
    that is not registered the list is empty. *)
Theorem suggestions_are_accepted
    (self : TypeValidationService) (output_type input_type : string) :
  (type_registry self !! output_type = None ->
   get_compatible_types self output_type = []) /\
  (input_type ∈ get_compatible_types self output_type ->
   registered self input_type ->
   are_types_compatible self output_type input_type = true).
Proof.
  split.
  - intros H. unfold get_compatible_types.
    apply contains_false in H. rewrite H. reflexivity.
  - intros Hin Hreg. apply get_compatible_types_registered in Hin as [Ho Hi].
    apply are_types_compatible_true. auto.
Qed.

Lemma suggestions_are_accepted_witness :
  get_compatible_types TypeValidationService_init "matrix" = [] /\
  are_types_compatible TypeValidationService_init "image" "file" = true.
Proof.
  split.
  - refine (proj1 (suggestions_are_accepted TypeValidationService_init
                     "matrix" "matrix") _).
    vm_compute. reflexivity.
  - refine (proj2 (suggestions_are_accepted TypeValidationService_init
                     "image" "file") _ _).
    + vm_compute. apply list_elem_of_further, list_elem_of_here.
    + eexists. vm_compute. reflexivity.
Defined.

(** X2. In the shipped service the list of [get_compatible_types] is exact
    for every output type but ['any']: an input type is accepted if and
    only if it is in the list. For ['any'] the list holds ['any'] alone,
    although every registered input type is accepted. *)
Theorem shipped_suggestions_are_exact :
  (forall output_type input_type : string,
     output_type <> "any" ->
     (are_types_compatible TypeValidationService_init output_type input_type = true <->
      input_type ∈ get_compatible_types TypeValidationService_init output_type)) /\
  (forall input_type : string,
     input_type ∈ get_compatible_types TypeValidationService_init "any" <->
     input_type = "any") /\
  (forall input_type : string,
     registered TypeValidationService_init input_type ->
     are_types_compatible TypeValidationService_init "any" input_type = true).
Proof.
  split; [|split].
  - intros o i Hne. split.
    + intros H. apply are_types_compatible_true in H as (Ho & Hi & H).
      unfold get_compatible_types.
      rewrite (proj2 (contains_true _ _) Ho). cbn [negb].
      destruct H as [?|[->|H]]; [contradiction | | exact H].
      rewrite shipped_matrix.
      destruct Ho as [info Hinfo]. unfold declared_compatible. rewrite Hinfo. simpl.
      apply registered_entry in Hinfo.
      exact (proj1 (Forall_forall _ _) entries_accept_any _ Hinfo).
    + intros H. pose proof (shipped_suggestion_registered _ _ H) as Hreg.
      apply get_compatible_types_registered in H as [Ho Hi].
      apply are_types_compatible_true. auto.
  - intros i. change (get_compatible_types TypeValidationService_init "any")
      with ["any"]. rewrite list_elem_of_singleton. reflexivity.
  - intros i Hi. apply are_types_compatible_true.
    split; [apply any_registered|]. split; [exact Hi|]. left. reflexivity.
Qed.

Lemma shipped_suggestions_are_exact_witness :
  (are_types_compatible TypeValidationService_init "set" "tuple" = true <->
   "tuple" ∈ get_compatible_types TypeValidationService_init "set") /\
  are_types_compatible TypeValidationService_init "any" "tensor" = true.
Proof.
  split.
  - refine (proj1 shipped_suggestions_are_exact "set" "tuple" _). discriminate.
  - refine (proj2 (proj2 shipped_suggestions_are_exact) "tensor" _).
    eexists. vm_compute. reflexivity.
Defined.

(** X3. In the shipped service a type annotation is supported exactly when
    the type is compatible with itself. *)
Theorem supported_iff_self_compatible (annotation : string) :
  validate_type_annotation TypeValidationService_init annotation
  = are_types_compatible TypeValidationService_init annotation annotation.
Proof.
  unfold validate_type_annotation.
  destruct (contains (type_registry TypeValidationService_init) annotation) eqn:H.
  - symmetry. apply contains_true in H. apply are_types_compatible_true.
    split; [exact H|]. split; [exact H|]. right. right.
    rewrite shipped_matrix. apply shipped_reflexive. exact H.
  - unfold are_types_compatible. rewrite H. reflexivity.
Qed.

(** X4. Compatibility is a single declared hop, it does not chain: in the
    shipped registry an integer may feed a number and a number may feed a
    float, but an integer may not feed a float. *)
Theorem compatibility_is_not_transitive :
  ~ (forall A B C : string,
       are_types_compatible TypeValidationService_init A B = true ->
       are_types_compatible TypeValidationService_init B C = true ->
       are_types_compatible TypeValidationService_init A C = true).
Proof.
  intros H. specialize (H "integer" "number" "float" eq_refl eq_refl).
  vm_compute in H. discriminate.
Qed.

(** ** Frontend and backend *)

Section Agreement.

Implicit Types (o i : string).

Lemma frontend_table_entries :
  Frontend.typeCompatibility = list_to_map frontend_entries.
Proof. reflexivity. Qed.

(** Every entry of the frontend table is the compatible set the backend
    registry declares for the same name, and none is for ['any']. *)
Lemma frontend_entries_in_registry :
  Forall (fun e => compatible_types <$> (_initialize_type_registry !! e.1) = Some e.2
                   /\ e.1 <> "any")
         frontend_entries.
Proof. apply (bool_decide_unpack _). vm_compute. reflexivity. Qed.

Lemma frontend_entry o items :
  Frontend.typeCompatibility !! o = Some items ->
  registered TypeValidationService_init o /\
  o <> "any" /\
  declared_compatible TypeValidationService_init o = items.
Proof.
  rewrite frontend_table_entries. intros H. apply elem_of_list_to_map_2 in H.
  pose proof (proj1 (Forall_forall _ _) frontend_entries_in_registry _ H) as [Hr Hne].
  cbn [fst snd] in Hr, Hne. unfold declared_compatible, registered.
  change (type_registry TypeValidationService_init) with _initialize_type_registry.
  destruct (_initialize_type_registry !! o) as [info|]; [|discriminate].
  injection Hr as Hr. split; [eexists; reflexivity|]. split; [exact Hne | exact Hr].
Qed.

Lemma frontend_same_on_entries o i items :
  Frontend.typeCompatibility !! o = Some items ->
  Frontend.areTypesCompatible o i
  = Returned (are_types_compatible TypeValidationService_init o i).
Proof.
  intros Hitems.
  destruct (frontend_entry o items Hitems) as (Hreg & Hne & Hdecl).
  unfold Frontend.areTypesCompatible, Frontend.lookup_or_empty. rewrite Hitems.
  unfold are_types_compatible.
  rewrite (proj2 (contains_true _ _) Hreg). cbn [negb orb].
  rewrite (proj2 (String.eqb_neq _ _) Hne). cbn [orb].
  rewrite shipped_matrix, Hdecl.
  destruct (String.eqb i "any") eqn:Ei.
  - apply String.eqb_eq in Ei. subst i.
    rewrite (proj2 (contains_true _ _) any_registered). reflexivity.
  - cbn [Frontend.includes]. f_equal.
    destruct (contains (type_registry TypeValidationService_init) i) eqn:Hi;
      [reflexivity|]. cbn [negb].
    apply contains_false in Hi. apply bool_decide_eq_false. intros Hin.
    assert (Hsug : i ∈ get_compatible_types TypeValidationService_init o).
    { unfold get_compatible_types.
      rewrite (proj2 (contains_true _ _) Hreg). cbn [negb].
      rewrite shipped_matrix, Hdecl. exact Hin. }
    apply shipped_suggestion_registered in Hsug as [? Hsome].
    unfold registered in *. congruence.
Qed.

End Agreement.

(** X5. The frontend check never accepts a pair of registered types that
    the backend rejects, and for an output type that has an entry in the
    frontend table the two services give the same answer on every input
    type and list the same compatible types. The frontend table is the
    smaller one: the backend accepts ['array'] into ['list'], the frontend
    does not. *)
Theorem frontend_agrees_with_backend :
  (forall outputType inputType items,
     Frontend.typeCompatibility !! outputType = Some items ->
     Frontend.areTypesCompatible outputType inputType
     = Returned (are_types_compatible TypeValidationService_init outputType inputType) /\
     Frontend.getCompatibleTypes outputType
     = Frontend.AnArray (get_compatible_types TypeValidationService_init outputType)) /\
  (forall outputType inputType,
     registered TypeValidationService_init outputType ->
     registered TypeValidationService_init inputType ->
     Frontend.areTypesCompatible outputType inputType = Returned true ->
     are_types_compatible TypeValidationService_init outputType inputType = true) /\
  (are_types_compatible TypeValidationService_init "array" "list" = true /\
   Frontend.areTypesCompatible "array" "list" = Returned false).
Proof.
  split; [|split].
  - intros o i items Hitems. split; [exact (frontend_same_on_entries o i items Hitems)|].
    destruct (frontend_entry o items Hitems) as (Hreg & _ & Hdecl).
    unfold Frontend.getCompatibleTypes, Frontend.lookup_or_empty. rewrite Hitems.
    unfold get_compatible_types.
    rewrite (proj2 (contains_true _ _) Hreg). cbn [negb].
    rewrite shipped_matrix, Hdecl. reflexivity.
  - intros o i Ho Hi H.
    destruct (Frontend.typeCompatibility !! o) as [items|] eqn:Hitems.
    + rewrite (frontend_same_on_entries o i items Hitems) in H. congruence.
    + apply frontend_true in H. apply are_types_compatible_true.
      split; [exact Ho|]. split; [exact Hi|].
      destruct H as [H|[H|H]]; [tauto | tauto |].
      unfold frontend_declared in H. rewrite Hitems in H. inversion H.
  - split; vm_compute; reflexivity.
Qed.

Lemma frontend_agrees_with_backend_witness :
  Frontend.areTypesCompatible "tensor" "numpy_array"
  = Returned (are_types_compatible TypeValidationService_init "tensor" "numpy_array") /\
  are_types_compatible TypeValidationService_init "any" "image" = true.
Proof.
  split.
  - refine (proj1 (proj1 frontend_agrees_with_backend "tensor" "numpy_array" _ _)).
    vm_compute. reflexivity.
  - refine (proj1 (proj2 frontend_agrees_with_backend) "any" "image" _ _ _).
    + eexists. vm_compute. reflexivity.
    + eexists. vm_compute. reflexivity.
    + reflexivity.
Defined.

(** ** Node connections, again *)

Section Classification.

Variable self : TypeValidationService.


End Classification.


(** X7. A node without outputs, or a target without inputs, can be
    connected to nothing, and then both lists are empty; and giving either
    node more ports never turns a connectable pair of nodes into one that
    cannot be connected. *)
Theorem node_connection_edges_and_growth (self : TypeValidationService) :
  (forall source_node target_node,
     outputs source_node = [] \/ inputs target_node = [] ->
     can_connect (validate_node_connection self source_node target_node) = false /\
     valid_connections (validate_node_connection self source_node target_node) = [] /\
     invalid_connections (validate_node_connection self source_node target_node) = [])
  /\
  (forall source_node target_node source_node' target_node',
     outputs source_node ⊆ outputs source_node' ->
     inputs target_node ⊆ inputs target_node' ->
     can_connect (validate_node_connection self source_node target_node) = true ->
     can_connect (validate_node_connection self source_node' target_node') = true).
Proof.
  split.
  - intros source_node target_node H.
    rewrite can_connect_existsb, valid_connections_eq, invalid_connections_eq.
    assert (Hnil : port_pairs source_node target_node = []).
    { unfold port_pairs. destruct H as [-> | ->]; [reflexivity|].
      induction (outputs source_node) as [|o os IH]; [reflexivity|].
      cbn [list_prod map app]. exact IH. }
    rewrite Hnil. repeat split.
  - intros s t s' t' Hs Ht. rewrite !can_connect_existsb, !existsb_exists.
    unfold port_pairs. intros ([o i] & Hin & Hc).
    apply in_prod_iff in Hin as [Ho Hi]. exists (o, i). split; [|exact Hc].
    apply in_prod_iff. split; apply list_elem_of_In.
    + apply Hs, list_elem_of_In, Ho.
    + apply Ht, list_elem_of_In, Hi.
Qed.

Lemma node_connection_edges_and_growth_witness :
  can_connect (validate_node_connection TypeValidationService_init
                 (mkNode "sink" [mkPort "in" "list"] []) node_B) = false /\
  can_connect (validate_node_connection TypeValidationService_init node_A node_B) = true.
Proof.
  split.
  - refine (proj1 (proj1 (node_connection_edges_and_growth TypeValidationService_init)
                     (mkNode "sink" [mkPort "in" "list"] []) node_B _)).
    left. reflexivity.
  - refine (proj2 (node_connection_edges_and_growth TypeValidationService_init)
              (mkNode "A" [] [mkPort "rows" "list"]) node_B node_A node_B _ _ _).
    + intros p Hp. apply list_elem_of_further. exact Hp.
    + intros p Hp. exact Hp.
    + vm_compute. reflexivity.
Defined.

(** ** Workflow validation, again *)

(** X8. [_find_node_by_id] returns the first node with the identifier: the
    nodes before it have other identifiers, and nodes after it with the
    same identifier are never seen. It returns [None] exactly when no node
    has the identifier. *)
Theorem find_node_returns_first (nodes : list node) (node_id' : string) :
  match _find_node_by_id nodes node_id' with
  | Some found =>
      exists before after,
        nodes = before ++ found :: after /\
        node_id found = node_id' /\
        Forall (fun n => node_id n <> node_id') before
  | None => Forall (fun n => node_id n <> node_id') nodes
  end.
Proof.
  induction nodes as [|n nodes IH]; cbn [_find_node_by_id].
  - constructor.
  - destruct (String.eqb (node_id n) node_id') eqn:E.
    + apply String.eqb_eq in E. exists [], nodes. repeat split; [exact E | constructor].
    + apply String.eqb_neq in E.
      destruct (_find_node_by_id nodes node_id') as [found|].
      * destruct IH as (before & after & -> & Hid & Hbefore).
        exists (n :: before), after. repeat split; [exact Hid|].
        constructor; assumption.
      * constructor; assumption.
Qed.

Lemma omap_nil_iff {A B} (f : A -> option B) (l : list A) :
  omap f l = [] <-> forall a, a ∈ l -> f a = None.
Proof.
  induction l as [|a l IH]; cbn [omap list_omap].
  - split; [|reflexivity]. intros _ a Ha. inversion Ha.
  - destruct (f a) eqn:E.
    + split; [discriminate|]. intros H.
      specialize (H a (list_elem_of_here _ _)). congruence.
    + rewrite IH. split.
      * intros H a' Ha'. apply elem_of_cons in Ha' as [->|Ha']; auto.
      * intros H a' Ha'. apply H, list_elem_of_further, Ha'.
Qed.

Section WorkflowMore.

Variable self : WorkflowValidationService.
Variable nodes : list node.

Lemma validate_one_recorded results conn :
  connection_validations (validate_one self nodes results conn)
  = connection_validations results ++ option_list (recorded_of self nodes conn).
Proof.
  unfold validate_one, recorded_of.
  destruct (_find_node_by_id nodes (nodeId (source conn))) as [s|];
    [destruct (_find_node_by_id nodes (nodeId (target conn))) as [t|]|];
    cbv zeta; cbn [connection_validations option_list];
    rewrite ?app_nil_r; try reflexivity.
  destruct (can_connect (validate_node_connection (type_validator self) s t));
    reflexivity.
Qed.

Lemma validate_one_warnings results conn :
  warnings (validate_one self nodes results conn) = warnings results.
Proof.
  unfold validate_one.
  destruct (_find_node_by_id nodes (nodeId (source conn))) as [s|];
    [destruct (_find_node_by_id nodes (nodeId (target conn))) as [t|]|];
    cbv zeta; try reflexivity.
  destruct (can_connect (validate_node_connection (type_validator self) s t));
    reflexivity.
Qed.

Lemma loop_recorded conns results :
  connection_validations (fold_left (validate_one self nodes) conns results)
  = connection_validations results ++ omap (recorded_of self nodes) conns.
Proof.
  revert results. induction conns as [|c conns IH]; intros results; simpl.
  - rewrite app_nil_r. reflexivity.
  - rewrite IH, validate_one_recorded, <- app_assoc. f_equal.
    destruct (recorded_of self nodes c); reflexivity.
Qed.

Lemma loop_warnings conns results :
  warnings (fold_left (validate_one self nodes) conns results) = warnings results.
Proof.
  revert results. induction conns as [|c conns IH]; intros results; simpl.
  - reflexivity.
  - rewrite IH. apply validate_one_warnings.
Qed.

Lemma error_of_none conn :
  error_of self nodes conn = None <->
  exists source_node target_node,
    _find_node_by_id nodes (nodeId (source conn)) = Some source_node /\
    _find_node_by_id nodes (nodeId (target conn)) = Some target_node /\
    some_pair_fits (type_validator self) source_node target_node.
Proof.
  unfold error_of.
  destruct (_find_node_by_id nodes (nodeId (source conn))) as [s|];
    [destruct (_find_node_by_id nodes (nodeId (target conn))) as [t|]|];
    cbv zeta.
  - rewrite can_connect_existsb.
    destruct (existsb (pair_compatible (type_validator self)) (port_pairs s t)) eqn:E.
    + split; [|reflexivity]. intros _. exists s, t. split; [reflexivity|].
      split; [reflexivity|].
      apply existsb_exists in E as ([o i] & Hin & Hc).
      apply in_prod_iff in Hin as [Ho Hi]. exists o, i.
      rewrite !list_elem_of_In. auto.
    + split; [discriminate|]. intros (s' & t' & [= <-] & [= <-] & o & i & Ho & Hi & Hc).
      assert (Ht : existsb (pair_compatible (type_validator self)) (port_pairs s t) = true).
      { apply existsb_exists. exists (o, i). split; [|exact Hc].
        apply in_prod_iff. rewrite <- !list_elem_of_In. auto. }
      congruence.
  - split; [discriminate|]. intros (? & ? & _ & ? & _). discriminate.
  - split; [discriminate|]. intros (? & ? & ? & _). discriminate.
Qed.

End WorkflowMore.

(** X9. A workflow is valid exactly when its error list is empty, and
    exactly when every connection joins two nodes of the workflow of which
    some output fits some input. Nothing else is looked at: the shape of
    the graph plays no part. *)
Theorem workflow_valid_iff (self : WorkflowValidationService) (workflow : workflow_data) :
  (can_execute_workflow self workflow = true <->
   get_workflow_errors self workflow = []) /\
  (can_execute_workflow self workflow = true <->
   forall conn, conn ∈ connections workflow ->
     exists source_node target_node,
       _find_node_by_id (nodes workflow) (nodeId (source conn)) = Some source_node /\
       _find_node_by_id (nodes workflow) (nodeId (target conn)) = Some target_node /\
       some_pair_fits (type_validator self) source_node target_node).
Proof.
  unfold can_execute_workflow, get_workflow_errors, validate_workflow_connections.
  cbv zeta. rewrite loop_valid, loop_errors. cbn [valid errors app andb].
  rewrite forallb_forall.
  assert (Hall : (forall c, In c (connections workflow) ->
                    bool_decide (error_of self (nodes workflow) c = None) = true) <->
                 forall c, c ∈ connections workflow ->
                    error_of self (nodes workflow) c = None).
  { split; intros H c Hc.
    - apply list_elem_of_In in Hc. specialize (H c Hc).
      apply bool_decide_eq_true in H. exact H.
    - apply list_elem_of_In in Hc. specialize (H c Hc).
      apply bool_decide_eq_true. exact H. }
  rewrite Hall, omap_nil_iff. split; [reflexivity|].
  split; intros H c Hc; apply error_of_none, H, Hc.
Qed.

(** X10. Validation works connection by connection: validating the
    connections of two lists in one run gives the errors and the recorded
    validations of the two separate runs, one after the other, and is valid
    when both are; it never issues a warning. *)
Theorem workflow_validation_composes
    (self : WorkflowValidationService) (workflow_nodes : list node)
    (first second : list connection) :
  valid (validate_workflow_connections self (mkWorkflow workflow_nodes (first ++ second)))
  = valid (validate_workflow_connections self (mkWorkflow workflow_nodes first))
    && valid (validate_workflow_connections self (mkWorkflow workflow_nodes second))
  /\ errors (validate_workflow_connections self (mkWorkflow workflow_nodes (first ++ second)))
     = errors (validate_workflow_connections self (mkWorkflow workflow_nodes first))
       ++ errors (validate_workflow_connections self (mkWorkflow workflow_nodes second))
  /\ connection_validations
       (validate_workflow_connections self (mkWorkflow workflow_nodes (first ++ second)))
     = connection_validations
         (validate_workflow_connections self (mkWorkflow workflow_nodes first))
       ++ connection_validations
            (validate_workflow_connections self (mkWorkflow workflow_nodes second))
  /\ warnings (validate_workflow_connections self (mkWorkflow workflow_nodes (first ++ second)))
     = [].
Proof.
  unfold validate_workflow_connections. cbv zeta.
  cbn [nodes connections].
  rewrite !loop_valid, !loop_errors, !loop_recorded, loop_warnings.
  cbn [valid errors connection_validations warnings app andb].
  rewrite forallb_app, !omap_app. repeat split.
Qed.

(** X11. A connection that names a node the workflow does not have is
    reported as [missing_node] and is not type-checked at all: the recorded
    validations are those of the other connections, in order, and the
    [missing_node] entries those of the connections with a missing node, in
    order; any such connection makes the workflow invalid. *)
Theorem missing_nodes_are_reported
    (self : WorkflowValidationService) (workflow : workflow_data) :
  map cv_connection
    (connection_validations (validate_workflow_connections self workflow))
  = List.filter (fun conn => negb (missing_node (nodes workflow) conn))
      (connections workflow)
  /\ map message
       (List.filter is_missing_node (get_workflow_errors self workflow))
     = map missing_message
         (List.filter (missing_node (nodes workflow)) (connections workflow))
  /\ (forall conn,
        conn ∈ connections workflow ->
        missing_node (nodes workflow) conn = true ->
        can_execute_workflow self workflow = false).
Proof.
  unfold can_execute_workflow, get_workflow_errors, validate_workflow_connections.
  cbv zeta. rewrite loop_valid, loop_errors, loop_recorded.
  cbn [valid errors connection_validations app andb].
  split; [|split].
  - induction (connections workflow) as [|c cs IH]; [reflexivity|].
    cbn [omap list_omap List.filter]. unfold recorded_of at 1, missing_node at 1.
    destruct (_find_node_by_id (nodes workflow) (nodeId (source c))) as [s|];
      [destruct (_find_node_by_id (nodes workflow) (nodeId (target c))) as [t|]|];
      cbn [negb map cv_connection]; rewrite ?IH; reflexivity.
  - induction (connections workflow) as [|c cs IH]; [reflexivity|].
    cbn [omap list_omap List.filter]. unfold error_of at 1, missing_node at 1.
    destruct (_find_node_by_id (nodes workflow) (nodeId (source c))) as [s|];
      [destruct (_find_node_by_id (nodes workflow) (nodeId (target c))) as [t|]|];
      cbv zeta; try (cbn; rewrite IH; reflexivity).
    destruct (can_connect (validate_node_connection (type_validator self) s t));
      cbn; exact IH.
  - intros conn Hin Hmiss. apply not_true_is_false. intros Hall.
    rewrite forallb_forall in Hall. apply list_elem_of_In in Hin.
    specialize (Hall _ Hin). apply bool_decide_eq_true in Hall.
    unfold error_of, missing_node in *.
    destruct (_find_node_by_id (nodes workflow) (nodeId (source conn))) as [s|];
      [destruct (_find_node_by_id (nodes workflow) (nodeId (target conn))) as [t|]|];
      discriminate.
Qed.

Lemma missing_nodes_are_reported_witness :
  can_execute_workflow WorkflowValidationService_init dangling_workflow = false.
Proof.
  exact (proj2 (proj2 (missing_nodes_are_reported WorkflowValidationService_init
                         dangling_workflow))
           dangling_connection (list_elem_of_here _ _) eq_refl).
Defined.

(** ** The type validation endpoint *)

(** X12. The endpoint answers with suggestions only when it rejects the
    pair. Every type it then suggests is one the check accepts for the same
    output type, the rejected input type is never among them, and for an
    output type that is not registered it has nothing to suggest. *)
Theorem endpoint_suggestions_help (request : Api.TypeValidationRequest) :
  (Api.compatible (Api.validate_types request) = true ->
   Api.suggestions (Api.validate_types request) = []) /\
  (Api.compatible (Api.validate_types request) = false ->
   forall T, T ∈ Api.suggestions (Api.validate_types request) ->
     are_types_compatible TypeValidationService_init (Api.output_type request) T = true /\
     T <> Api.input_type request) /\
  (type_registry TypeValidationService_init !! Api.output_type request = None ->
   Api.compatible (Api.validate_types request) = false /\
   Api.suggestions (Api.validate_types request) = []).
Proof.
  unfold Api.validate_types. cbv zeta.
  destruct (are_types_compatible TypeValidationService_init
              (Api.output_type request) (Api.input_type request)) eqn:E;
    cbn [negb Api.compatible Api.suggestions].
  - split; [reflexivity|]. split; [discriminate|].
    intros H. exfalso.
    apply are_types_compatible_true in E as ([? Hs] & _). unfold registered in *.
    congruence.
  - split; [discriminate|]. split.
    + intros _ T HT.
      assert (Hok : are_types_compatible TypeValidationService_init
                      (Api.output_type request) T = true).
      { apply are_types_compatible_true.
        pose proof (shipped_suggestion_registered _ _ HT) as HregT.
        apply get_compatible_types_registered in HT as [Ho HT]. auto. }
      split; [exact Hok|]. intros ->. congruence.
    + intros H. split; [reflexivity|].
      unfold get_compatible_types. apply contains_false in H. rewrite H. reflexivity.
Qed.

Lemma endpoint_suggestions_help_witness :
  Api.suggestions (Api.validate_types (Api.mkRequest "string" "string")) = [] /\
  (are_types_compatible TypeValidationService_init "image" "file" = true /\
   "file" <> "video") /\
  Api.suggestions (Api.validate_types (Api.mkRequest "matrix" "list")) = [].
Proof.
  split; [|split].
  - exact (proj1 (endpoint_suggestions_help (Api.mkRequest "string" "string")) eq_refl).
  - refine (proj1 (proj2 (endpoint_suggestions_help (Api.mkRequest "image" "video")))
              eq_refl "file" _).
    vm_compute. apply list_elem_of_further, list_elem_of_here.
  - refine (proj2 (proj2 (proj2 (endpoint_suggestions_help
                                   (Api.mkRequest "matrix" "list"))) _)).
    vm_compute. reflexivity.
Defined.

(** ** The frontend service, again *)

Section FrontendLoops.

Lemma prototype_keys_apart :
  Forall (fun k => k <> "any" /\ Frontend.typeCompatibility !! k = None)
         Frontend.object_prototype_keys.
Proof. apply (bool_decide_unpack _). vm_compute. reflexivity. Qed.

Lemma frontend_raises o i e :
  Frontend.areTypesCompatible o i = Raised e <->
  e = "TypeError" /\ o ∈ Frontend.object_prototype_keys /\ i <> "any".
Proof.
  unfold Frontend.areTypesCompatible, Frontend.lookup_or_empty.
  destruct (String.eqb o "any") eqn:Eo; cbn [orb].
  { apply String.eqb_eq in Eo. subst o. split; [discriminate|].
    intros (_ & Hin & _).
    destruct (proj1 (Forall_forall _ _) prototype_keys_apart _ Hin) as [Hne _].
    contradiction. }
  destruct (String.eqb i "any") eqn:Ei; cbn [orb].
  { apply String.eqb_eq in Ei. split; [discriminate|]. intros (_ & _ & ?). contradiction. }
  apply String.eqb_neq in Ei.
  destruct (Frontend.typeCompatibility !! o) as [items|] eqn:Hitems.
  { cbn [Frontend.includes]. split; [discriminate|]. intros (_ & Hin & _).
    destruct (proj1 (Forall_forall _ _) prototype_keys_apart _ Hin) as [_ Hnone].
    congruence. }
  destruct (str_in o Frontend.object_prototype_keys) eqn:Hin; cbn [Frontend.includes].
  - apply str_in_true in Hin. split.
    + intros [= <-]. auto.
    + intros (-> & _ & _). reflexivity.
  - split; [discriminate|]. intros (_ & Hin' & _).
    apply str_in_true in Hin'. congruence.
Qed.

Lemma each_input_classify output targetInputs results :
  FrontendService.each_input output targetInputs results
  = classify (map (pair output) targetInputs) results.
Proof.
  revert results. induction targetInputs as [|i ins IH]; intros results;
    cbn [FrontendService.each_input map classify]; [reflexivity|].
  unfold frontend_pair. cbn [fst snd].
  destruct (Frontend.areTypesCompatible (port_type output) (port_type i));
    cbn [mbind outcome_bind]; [apply IH | reflexivity].
Qed.

Lemma classify_app first second results :
  classify (first ++ second) results
  = (results' ← classify first results; classify second results').
Proof.
  revert results. induction first as [|p first IH]; intros results;
    cbn [app classify]; [reflexivity|].
  destruct (frontend_pair p); cbn [mbind outcome_bind]; [apply IH | reflexivity].
Qed.

Lemma each_output_classify sourceOutputs targetInputs results :
  FrontendService.each_output sourceOutputs targetInputs results
  = classify (list_prod sourceOutputs targetInputs) results.
Proof.
  revert results. induction sourceOutputs as [|o outs IH]; intros results;
    cbn [FrontendService.each_output list_prod]; [reflexivity|].
  rewrite classify_app, each_input_classify.
  destruct (classify (map (pair o) targetInputs) results);
    cbn [mbind outcome_bind]; [apply IH | reflexivity].
Qed.

Lemma classify_spec pairs results :
  match classify pairs results with
  | Returned all =>
      exists added,
        all = results ++ added /\ map result_ports added = pairs /\
        Forall faithful_result added
  | Raised e => exists p, p ∈ pairs /\ frontend_pair p = Raised e
  end.
Proof.
  revert results. induction pairs as [|p pairs IH]; intros results; cbn [classify].
  - exists []. rewrite app_nil_r. repeat split. constructor.
  - destruct (frontend_pair p) as [c|e] eqn:Hp; cbn [mbind outcome_bind].
    + specialize (IH (results ++ [pair_result p c])).
      destruct (classify pairs (results ++ [pair_result p c])) as [all|e].
      * destruct IH as (added & -> & Hports & Hfaithful).
        exists (pair_result p c :: added). rewrite <- app_assoc.
        split; [reflexivity|]. split.
        -- cbn [map]. rewrite Hports. destruct p. reflexivity.
        -- constructor; [|exact Hfaithful].
           unfold faithful_result. destruct p. exact Hp.
      * destruct IH as (q & Hq & Hraise). exists q.
        split; [apply list_elem_of_further, Hq | exact Hraise].
    + exists p. split; [apply list_elem_of_here | exact Hp].
Qed.

End FrontendLoops.

(** X13. [validateConnection] of the frontend service throws a
    [TypeError], and nothing else, exactly when some output of the source
    is typed with a name every object inherits from [Object.prototype]
    (such as ['constructor'] or ['toString']) and some input of the target
    is not typed ['any']. When it returns, [results] has one entry for
    every (output, input) pair, in loop order, each with the answer of
    [areTypesCompatible] on its ports, and [valid] is true exactly when the
    check accepts some pair. *)
Theorem frontend_validateConnection_spec (sourceNode targetNode : node) :
  (forall e,
     FrontendService.validateConnection sourceNode targetNode = Raised e <->
     e = "TypeError" /\
     exists output input_port,
       output ∈ outputs sourceNode /\ input_port ∈ inputs targetNode /\
       port_type output ∈ Frontend.object_prototype_keys /\
       port_type input_port <> "any") /\
  (forall r,
     FrontendService.validateConnection sourceNode targetNode = Returned r ->
     map result_ports (FrontendService.results r) = port_pairs sourceNode targetNode /\
     Forall faithful_result (FrontendService.results r) /\
     (FrontendService.valid r = true <->
      exists output input_port,
        output ∈ outputs sourceNode /\ input_port ∈ inputs targetNode /\
        Frontend.areTypesCompatible (port_type output) (port_type input_port)
        = Returned true)).
Proof.
  unfold FrontendService.validateConnection. cbv zeta.
  rewrite each_output_classify. fold (port_pairs sourceNode targetNode).
  pose proof (classify_spec (port_pairs sourceNode targetNode) []) as Hspec.
  destruct (classify (port_pairs sourceNode targetNode) []) as [all|e0];
    cbn [mbind outcome_bind].
  - destruct Hspec as (added & -> & Hports & Hfaithful). cbn [app] in *.
    split.
    + intros e. split; [discriminate|].
      intros (_ & o & i & Ho & Hi & Hproto & Hany). exfalso.
      assert (Hin : (o, i) ∈ map result_ports added).
      { rewrite Hports. apply list_elem_of_In, in_prod_iff.
        rewrite <- !list_elem_of_In. auto. }
      apply list_elem_of_In, in_map_iff in Hin as (x & Hx & Hxin).
      apply list_elem_of_In in Hxin.
      pose proof (proj1 (Forall_forall _ _) Hfaithful x Hxin) as Hok.
      unfold faithful_result in Hok. rewrite Hx in Hok.
      assert (Hraise : frontend_pair (o, i) = Raised "TypeError").
      { apply frontend_raises. auto. }
      congruence.
    + intros r [= <-]. cbn [FrontendService.results FrontendService.valid].
      split; [exact Hports|]. split; [exact Hfaithful|].
      rewrite existsb_exists. split.
      * intros (x & Hxin & Hc). apply list_elem_of_In in Hxin.
        pose proof (proj1 (Forall_forall _ _) Hfaithful x Hxin) as Hok.
        unfold faithful_result in Hok. rewrite Hc in Hok.
        assert (Hp : result_ports x ∈ port_pairs sourceNode targetNode).
        { rewrite <- Hports. apply list_elem_of_fmap. exists x. auto. }
        destruct (result_ports x) as [o i].
        apply list_elem_of_In, in_prod_iff in Hp as [Ho Hi].
        exists o, i. rewrite !list_elem_of_In. auto.
      * intros (o & i & Ho & Hi & Hc).
        assert (Hin : (o, i) ∈ map result_ports added).
        { rewrite Hports. apply list_elem_of_In, in_prod_iff.
          rewrite <- !list_elem_of_In. auto. }
        apply list_elem_of_In, in_map_iff in Hin as (x & Hx & Hxin).
        exists x. split; [exact Hxin|]. apply list_elem_of_In in Hxin.
        pose proof (proj1 (Forall_forall _ _) Hfaithful x Hxin) as Hok.
        unfold faithful_result in Hok. rewrite Hx in Hok.
        unfold frontend_pair in Hok. cbn [fst snd] in Hok. congruence.
  - destruct Hspec as ([o i] & Hin & Hraise).
    split; [|discriminate].
    apply frontend_raises in Hraise as (-> & Hproto & Hany).
    cbn [fst snd] in Hproto, Hany.
    intros e. split.
    + intros [= <-]. split; [reflexivity|].
      apply list_elem_of_In, in_prod_iff in Hin as [Ho Hi].
      apply list_elem_of_In in Ho, Hi.
      exists o, i. split; [exact Ho|]. split; [exact Hi|]. split; assumption.
    + intros (-> & _). reflexivity.
Qed.

Lemma frontend_validateConnection_spec_witness :
  FrontendService.validateConnection
    (mkNode "source" [] [mkPort "out" "toString"])
    (mkNode "sink" [mkPort "in" "string"] [])
  = Raised "TypeError".
Proof.
  refine (proj2 (proj1 (frontend_validateConnection_spec
                          (mkNode "source" [] [mkPort "out" "toString"])
                          (mkNode "sink" [mkPort "in" "string"] []))
                   "TypeError") _).
  split; [reflexivity|].
  exists (mkPort "out" "toString"), (mkPort "in" "string").
  split; [apply list_elem_of_here|]. split; [apply list_elem_of_here|].
  split; [|discriminate]. vm_compute.
  do 8 apply list_elem_of_further. apply list_elem_of_here.
Defined.

(** ** Conversion suggestions *)

Section ConversionKeys.

Lemma string_cons_inv a b s t : String a s = String b t -> a = b /\ s = t.
Proof. intros [= -> ->]. split; reflexivity. Qed.

(** Takes apart an equation between a key [f +:+ "_to_" +:+ t] and a
    literal, letter by letter. *)
Ltac crack_key H :=
  lazymatch type of H with
  | String.append EmptyString ?x = ?r => change (x = r) in H; crack_key H
  | String.append (String ?a ?s) ?x = ?r =>
      change (String a (String.append s x) = r) in H; crack_key H
  | String.append ?f _ = _ => destruct f as [|? ?]; crack_key H
  | String _ _ = String _ _ =>
      apply string_cons_inv in H as [? H];
      first [discriminate | subst; crack_key H]
  | String _ _ = EmptyString => discriminate H
  | EmptyString = String _ _ => discriminate H
  | _ => subst
  end.

Lemma conversion_key_not_inherited fromType toType :
  fromType +:+ "_to_" +:+ toType ∉ Frontend.object_prototype_keys.
Proof.
  unfold Frontend.object_prototype_keys. intros Hin.
  repeat (apply elem_of_cons in Hin as [Hin|Hin]; [crack_key Hin|]).
  inversion Hin.
Qed.

Lemma conversion_key_entry fromType toType found :
  TypeConversion.TYPE_CONVERSION_SUGGESTIONS !! (fromType +:+ "_to_" +:+ toType)
  = Some found ->
  (fromType, toType) ∈ convertible_pairs /\
  TypeConversion.from found = fromType /\ TypeConversion.to found = toType.
Proof.
  intros H. apply elem_of_list_to_map_2 in H.
  unfold TypeConversion.suggestion_entries in H.
  repeat (apply elem_of_cons in H as [H|H];
          [injection H as H ->; crack_key H;
           split; [|split; reflexivity];
           unfold convertible_pairs;
           repeat (first [apply list_elem_of_here | apply list_elem_of_further])|]).
  inversion H.
Qed.

End ConversionKeys.

(** X14. [getTypeConversionSuggestion] finds an entry exactly for the four
    pairs list/array, dict/object, number/integer and number/float; the
    entry names the two types asked about; the key it builds never hits a
    member inherited from [Object.prototype]. Every pair that has a
    suggestion is one that both compatibility checks already accept. *)
Theorem conversions_are_for_compatible_pairs (fromType toType : string) :
  (forall key,
     TypeConversion.getTypeConversionSuggestion fromType toType
     <> TypeConversion.Inherited key) /\
  ((exists found,
      TypeConversion.getTypeConversionSuggestion fromType toType
      = TypeConversion.Entry found) <->
   (fromType, toType) ∈ convertible_pairs) /\
  (forall found,
     TypeConversion.getTypeConversionSuggestion fromType toType
     = TypeConversion.Entry found ->
     TypeConversion.from found = fromType /\
     TypeConversion.to found = toType /\
     Frontend.areTypesCompatible fromType toType = Returned true /\
     are_types_compatible TypeValidationService_init fromType toType = true).
Proof.
  assert (Hcompat : (fromType, toType) ∈ convertible_pairs ->
            Frontend.areTypesCompatible fromType toType = Returned true /\
            are_types_compatible TypeValidationService_init fromType toType = true).
  { unfold convertible_pairs. intros Hin.
    repeat (apply elem_of_cons in Hin as [Hin|Hin];
            [injection Hin as -> ->; split; vm_compute; reflexivity|]).
    inversion Hin. }
  unfold TypeConversion.getTypeConversionSuggestion. cbv zeta.
  assert (Hkey : str_in (fromType +:+ "_to_" +:+ toType)
                   Frontend.object_prototype_keys = false).
  { apply bool_decide_eq_false, conversion_key_not_inherited. }
  rewrite Hkey.
  destruct (TypeConversion.TYPE_CONVERSION_SUGGESTIONS
              !! (fromType +:+ "_to_" +:+ toType)) as [found|] eqn:Hfound.
  - destruct (conversion_key_entry _ _ _ Hfound) as (Hpair & Hfrom & Hto).
    split; [discriminate|]. split.
    + split; [intros _; exact Hpair | intros _; eexists; reflexivity].
    + intros found' [= <-]. destruct (Hcompat Hpair). auto.
  - split; [discriminate|]. split; [|discriminate].
    split; [intros [? ?]; discriminate|].
    unfold convertible_pairs. intros Hin. exfalso.
    repeat (apply elem_of_cons in Hin as [Hin|Hin];
            [injection Hin as -> ->; vm_compute in Hfound; discriminate|]).
    inversion Hin.
Qed.

Lemma conversions_are_for_compatible_pairs_witness :
  Frontend.areTypesCompatible "number" "float" = Returned true /\
  are_types_compatible TypeValidationService_init "number" "float" = true.
Proof.
  pose proof (proj2 (proj2 (conversions_are_for_compatible_pairs "number" "float"))
                _ eq_refl) as H.
  exact (proj2 (proj2 H)).
Defined.


(** ** Frontend and backend on node connections *)

Lemma classify_answers (answer : port * port -> bool) pairs results :
  (forall p, p ∈ pairs -> frontend_pair p = Returned (answer p)) ->
  classify pairs results
  = Returned (results ++ map (fun p => pair_result p (answer p)) pairs).
Proof.
  revert results. induction pairs as [|p pairs IH]; intros results Hall;
    cbn [classify map].
  - rewrite app_nil_r. reflexivity.
  - rewrite (Hall p (list_elem_of_here _ _)). cbn [mbind outcome_bind].
    rewrite IH by (intros q Hq; apply Hall, list_elem_of_further, Hq).
    rewrite <- app_assoc. reflexivity.
Qed.

(** X21. For a source node whose output types all have an entry in the
    frontend table, [validateConnection] of the frontend returns, and its
    [valid] is the [can_connect] of the backend's
    [validate_node_connection]: the canvas and the server agree on whether
    the two nodes may be joined. *)
Theorem frontend_verdict_is_backend_verdict (sourceNode targetNode : node) :
  (forall output, output ∈ outputs sourceNode ->
                  is_Some (Frontend.typeCompatibility !! port_type output)) ->
  exists r,
    FrontendService.validateConnection sourceNode targetNode = Returned r /\
    FrontendService.valid r
    = can_connect (validate_node_connection TypeValidationService_init
                     sourceNode targetNode) /\
    map FrontendService.compatible (FrontendService.results r)
    = map (pair_compatible TypeValidationService_init)
        (port_pairs sourceNode targetNode).
Proof.
  intros Hentries.
  unfold FrontendService.validateConnection. cbv zeta.
  rewrite each_output_classify. fold (port_pairs sourceNode targetNode).
  rewrite (classify_answers (pair_compatible TypeValidationService_init)).
  - cbn [mbind outcome_bind app]. eexists. split; [reflexivity|].
    cbn [FrontendService.valid FrontendService.results].
    rewrite can_connect_existsb. split.
    + induction (port_pairs sourceNode targetNode) as [|p ps IH]; [reflexivity|].
      cbn [map existsb FrontendService.compatible pair_result]. rewrite IH.
      reflexivity.
    + rewrite map_map. apply map_ext. intros p. reflexivity.
  - intros [o i] Hp. unfold port_pairs in Hp.
    apply list_elem_of_In, in_prod_iff in Hp as [Ho _].
    apply list_elem_of_In in Ho.
    destruct (Hentries o Ho) as [items Hitems].
    exact (frontend_same_on_entries _ _ items Hitems).
Qed.

Lemma frontend_verdict_is_backend_verdict_witness :
  exists r,
    FrontendService.validateConnection test_source_node test_target_node = Returned r /\
    FrontendService.valid r
    = can_connect (validate_node_connection TypeValidationService_init
                     test_source_node test_target_node) /\
    map FrontendService.compatible (FrontendService.results r)
    = map (pair_compatible TypeValidationService_init)
        (port_pairs test_source_node test_target_node).
Proof.
  refine (frontend_verdict_is_backend_verdict test_source_node test_target_node _).
  intros output Hin. apply list_elem_of_singleton in Hin. subst output.
  eexists. vm_compute. reflexivity.
Defined.

(** ** The converter, again *)

(** X15. [python_to_n8n] raises exactly when the library call of its
    branch raises, and then with the exception of that call: never on a
    string, an integer, a float or a boolean; on a list or a dictionary
    when [json.dumps] raises, whatever [pickle.dumps] would have done with
    it; on any other value when [pickle.dumps] raises. *)
Theorem encoding_fails_exactly_when (lib : library) (python_data : pyvalue) :
  (forall exn,
     python_to_n8n lib python_data = Raised exn <->
     (strategy_for (type_of python_data) = "json" /\
      json_dumps lib python_data = Raised exn) \/
     (strategy_for (type_of python_data) = "pickle" /\
      pickle_dumps lib python_data = Raised exn)) /\
  (strategy_for (type_of python_data) = "simple" ->
   python_to_n8n lib python_data = Returned (tagged "simple" python_data)) /\
  (strategy_for (type_of python_data) = "json" ->
   forall text, json_dumps lib python_data = Returned text ->
   python_to_n8n lib python_data = Returned (tagged "json" text)) /\
  (strategy_for (type_of python_data) = "pickle" ->
   forall data, pickle_dumps lib python_data = Returned data ->
   python_to_n8n lib python_data = Returned (tagged "pickle" data)).
Proof.
  rewrite python_to_n8n_by_class.
  split; [|split; [|split]].
  - intros exn.
    destruct (type_of python_data); cbn [strategy_for];
      unfold mbind, outcome_bind;
      destruct (json_dumps lib python_data), (pickle_dumps lib python_data);
      cbv beta iota;
      (split;
       [ intros H;
         first [ discriminate H
               | left; split; [reflexivity | congruence]
               | right; split; [reflexivity | congruence] ]
       | intros [[Hs H]|[Hs H]];
         first [discriminate Hs | discriminate H | congruence] ]).
  - destruct (type_of python_data); cbn [strategy_for]; try discriminate; reflexivity.
  - destruct (type_of python_data); cbn [strategy_for]; try discriminate;
      intros _ text ->; reflexivity.
  - destruct (type_of python_data); cbn [strategy_for]; try discriminate;
      intros _ data ->; reflexivity.
Qed.

(** ** Type inference, again *)

(** X18. Whatever the value, [infer_type_from_value] names one of ten
    types, each of them registered: the inferred type is always a supported
    annotation, and never ['any'], ['number'] or ['array']. *)
Theorem inferred_types_are_registered (value : pyvalue) :
  infer_type_from_value value ∈ inferred_names /\
  validate_type_annotation TypeValidationService_init (infer_type_from_value value) = true /\
  infer_type_from_value value <> "any" /\
  infer_type_from_value value <> "number" /\
  infer_type_from_value value <> "array".
Proof.
  destruct value as [| b | | | | | | | | | ];
    (split; [vm_compute;
             repeat (first [apply list_elem_of_here | apply list_elem_of_further])
            |split; [vm_compute; reflexivity | repeat split; discriminate]]).
Qed.

(** X19. For every inferred type but ['object'] the class the registry
    gives for the type is one the value is an instance of. ['object'] is
    the exception: the registry gives [dict] for it, and a value inferred
    as ['object'] is never a [dict]. *)
Theorem inferred_type_matches_registered_class (value : pyvalue) (info : TypeInfo) :
  type_registry TypeValidationService_init !! infer_type_from_value value = Some info ->
  (infer_type_from_value value <> "object" ->
   exists c, python_type info = OneClass c /\ isinstance value c = true) /\
  (infer_type_from_value value = "object" ->
   python_type info = OneClass Cdict /\ isinstance value Cdict = false).
Proof.
  destruct value as [| b | | | | | | | | | ]; intros Hinfo;
    vm_compute in Hinfo; injection Hinfo as <-;
    (split; [intros Hne; try (exfalso; apply Hne; reflexivity);
             eexists; split; reflexivity
            |intros Heq; try discriminate Heq; split; reflexivity]).
Qed.

Lemma inferred_type_matches_registered_class_witness :
  (exists c, OneClass Ctuple = OneClass c /\ isinstance (PyTuple [PyInt 1]) c = true) /\
  isinstance (PyBytes "raw") Cdict = false.
Proof.
  split.
  - refine (proj1 (inferred_type_matches_registered_class (PyTuple [PyInt 1])
                     (mkTypeInfo "tuple" COLLECTION (OneClass Ctuple)
                        ["tuple"; "list"; "array"; "any"] "Tuple of items") _) _).
    + vm_compute. reflexivity.
    + discriminate.
  - refine (proj2 (proj2 (inferred_type_matches_registered_class (PyBytes "raw")
                            (mkTypeInfo "object" COLLECTION (OneClass Cdict)
                               ["object"; "dict"; "any"] "Object") _) _)).
    + vm_compute. reflexivity.
    + reflexivity.
Defined.


(** ** Further examples *)

(** A workflow whose connections form a cycle validates. *)
Example cycle_is_not_rejected :
  can_execute_workflow WorkflowValidationService_init cyclic_workflow = true.
Proof. vm_compute. reflexivity. Qed.

(** A dictionary tagged ["json"] whose value is no text is handed to
    [json.loads] as it is. *)
Example json_tag_without_text :
  n8n_to_python sample_calls (tagged "json" (PyInt 5)) Cdict = Raised "TypeError" /\
  n8n_to_python sample_calls (<["type" := PyStr "json"]> ∅) Cdict
    = Raised "TypeError".
Proof. split; reflexivity. Qed.

(** The test of the frontend service on node connections. *)
Example frontend_test_node_connection :
  exists r,
    FrontendService.validateConnection test_source_node test_target_node = Returned r /\
    FrontendService.valid r = true /\ length (FrontendService.results r) = 1.
Proof. eexists. vm_compute. auto. Qed.
